(** * Library book-lending service: the request handlers of [index.js]

    A shallow embedding of the Express handlers of [src/index.js] over an
    explicit model of the SQLite store they share, followed by the
    properties of the borrow workflow and of the authentication gate.

    Conventions of the embedding.
    - The module-level handle [db] becomes an explicit [Store] that every
      handler receives and returns.
    - A JSON body is a record of optional fields: a field is [None] when the
      client left it out ([undefined] after destructuring, bound as NULL)
      and otherwise carries a value of the type of the column it is written
      to (a JSON string for TEXT, a JSON integer for INTEGER, a JSON boolean
      for BOOLEAN).  SQLite's conversions between storage classes are
      therefore not part of the model.
    - The path parameter [:id] is the integer SQLite compares with the
      INTEGER PRIMARY KEY after its numeric conversion of the path segment.
    - Text is a string of bytes, compared bytewise as SQLite's BINARY
      collation does.
    - [bcrypt] and [Buffer] are external: their functions on strings are
      the fields of the class [Platform]; what they do with [undefined] is
      written out in the handlers.
    - An exception that escapes an [async] handler is the outcome
      [Unhandled]: the handler sends no response. *)

From Stdlib Require Import ZArith List String Ascii Bool Sorted Lia.
Import ListNotations.

Local Open Scope Z_scope.
Local Open Scope string_scope.

(** ** External collaborators *)

Class Platform := {
  (** [Buffer.from(s, 'base64').toString()] *)
  base64_toString : string -> string;
  (** [bcrypt.hashSync(data, rounds)] for a string [data] *)
  bcrypt_hashSync : string -> Z -> string;
  (** [bcrypt.compareSync(data, hash)] for strings [data] and [hash] *)
  bcrypt_compareSync : string -> string -> bool
}.

(** ** JavaScript helpers *)

Module Js.

(** [s.split(sep)] for a separator of one character. *)
Fixpoint split (sep : ascii) (s : string) : list string :=
  match s with
  | EmptyString => [EmptyString]
  | String c rest =>
      if Ascii.eqb c sep then EmptyString :: split sep rest
      else match split sep rest with
           | piece :: pieces => String c piece :: pieces
           | [] => [String c EmptyString]
           end
  end.

(** [arr[i]]: [None] is [undefined]. *)
Definition index {A : Type} (arr : list A) (i : nat) : option A :=
  nth_error arr i.

(** Truthiness of a string ([!s] is [negb (truthy_string s)]). *)
Definition truthy_string (s : string) : bool :=
  negb (String.eqb s "").

(** Truthiness of an integer number. *)
Definition truthy_number (n : Z) : bool :=
  negb (Z.eqb n 0).

End Js.

(** ** Data model: the rows of the tables created at start-up *)

Module User.
Record t := mk {
  id : Z;
  email : string;
  password : string;
  is_admin : Z
}.
End User.

Module Book.
Record t := mk {
  id : Z;
  title : string;
  author : string
}.
End Book.

Module BorrowRequest.
Record t := mk {
  id : Z;
  book_id : Z;
  user_id : Z;
  start_date : string;
  end_date : string;
  status : string
}.

Definition with_status (s : string) (r : t) : t :=
  mk (id r) (book_id r) (user_id r) (start_date r) (end_date r) s.
End BorrowRequest.

(** The store: each table is the list of its rows in rowid order, which is
    the order in which a [SELECT] without [ORDER BY] scans them.  The two
    [seq_] fields are the [sqlite_sequence] entries of the AUTOINCREMENT
    keys.  [borrow_history] is created but never read or written. *)
Record Store := mkStore {
  users : list User.t;
  books : list Book.t;
  borrow_requests : list BorrowRequest.t;
  seq_users : Z;
  seq_borrow_requests : Z
}.

Definition empty_store : Store := mkStore [] [] [] 0 0.

(** ** The SQL statements of the handlers *)

Module Sql.

(** Result of [db.run]: the promise resolves or rejects. *)
Inductive run (A : Type) : Type :=
| Resolved (a : A)
| Rejected (constraint : string).
Arguments Resolved {A} a.
Arguments Rejected {A} constraint.

(** [x BETWEEN lo AND hi] on TEXT. *)
Definition between (x lo hi : string) : bool :=
  String.leb lo x && String.leb x hi.

(** AUTOINCREMENT: one more than the largest rowid the table ever had. *)
Definition next_rowid (seq : Z) (ids : list Z) : Z :=
  fold_right Z.max seq ids + 1.

(** [SELECT * FROM users WHERE email = ?] through [db.get]: the first
    row, or [None] for [undefined].  A NULL parameter equals no row. *)
Definition get_user_by_email (st : Store) (email : option string)
  : option User.t :=
  match email with
  | None => None
  | Some e => find (fun u => String.eqb (User.email u) e) (users st)
  end.

(** [INSERT INTO users (email, password, is_admin) VALUES (?, ?, ?)]
    under [email TEXT UNIQUE NOT NULL]. *)
Definition insert_user (st : Store) (email : option string)
    (password : string) (is_admin : Z) : run Store :=
  match email with
  | None => Rejected "NOT NULL constraint failed: users.email"
  | Some e =>
      if existsb (fun u => String.eqb (User.email u) e) (users st)
      then Rejected "UNIQUE constraint failed: users.email"
      else
        let rowid := next_rowid (seq_users st) (map User.id (users st)) in
        Resolved (mkStore (users st ++ [User.mk rowid e password is_admin])
                          (books st) (borrow_requests st)
                          rowid (seq_borrow_requests st))
  end.

(** [SELECT * FROM books] and [SELECT * FROM borrow_requests]. *)
Definition all_books (st : Store) : list Book.t := books st.
Definition all_borrow_requests (st : Store) : list BorrowRequest.t :=
  borrow_requests st.

(** [CHECK(status IN ('Pending', 'Approved', 'Denied'))] with NOT NULL. *)
Definition status_allowed (status : option string) : bool :=
  match status with
  | None => false
  | Some s =>
      String.eqb s "Pending" || String.eqb s "Approved"
      || String.eqb s "Denied"
  end.

(** [UPDATE borrow_requests SET status = ? WHERE id = ?]: the constraints
    of the column are checked on the rows the statement changes; a
    statement that fails changes nothing. *)
Definition update_status (st : Store) (status : option string) (id : Z)
  : run Store :=
  if existsb (fun r => Z.eqb (BorrowRequest.id r) id) (borrow_requests st)
  then
    match status with
    | Some s =>
        if status_allowed status then
          Resolved
            (mkStore (users st) (books st)
               (map (fun r => if Z.eqb (BorrowRequest.id r) id
                              then BorrowRequest.with_status s r else r)
                    (borrow_requests st))
               (seq_users st) (seq_borrow_requests st))
        else Rejected "CHECK constraint failed: borrow_requests"
    | None => Rejected "NOT NULL constraint failed: borrow_requests.status"
    end
  else Resolved st.

(** The [WHERE] clause of the conflict query on one row:
    [book_id = ? AND status = "Approved" AND
     (? BETWEEN start_date AND end_date OR ? BETWEEN start_date AND end_date)].
    The double-quoted word names no column, so SQLite reads it as the
    text 'Approved'.  A comparison with a NULL parameter is not true. *)
Definition conflicts (book_id : option Z) (start_date end_date : option string)
    (r : BorrowRequest.t) : bool :=
  match book_id with
  | None => false
  | Some b => Z.eqb (BorrowRequest.book_id r) b
  end
  && String.eqb (BorrowRequest.status r) "Approved"
  && (match start_date with
      | None => false
      | Some s =>
          between s (BorrowRequest.start_date r) (BorrowRequest.end_date r)
      end
      || match end_date with
         | None => false
         | Some e =>
             between e (BorrowRequest.start_date r) (BorrowRequest.end_date r)
         end).

(** The conflict query through [db.get]. *)
Definition get_conflict (st : Store) (book_id : option Z)
    (start_date end_date : option string) : option BorrowRequest.t :=
  find (conflicts book_id start_date end_date) (borrow_requests st).

(** [INSERT INTO borrow_requests (book_id, user_id, start_date, end_date,
    status) VALUES (?, ?, ?, ?, "Pending")]: every column is NOT NULL;
    foreign keys are declared but SQLite does not enforce them unless
    the connection turns them on, which [index.js] never does. *)
Definition insert_borrow_request (st : Store) (book_id : option Z)
    (user_id : Z) (start_date end_date : option string) : run Store :=
  match book_id, start_date, end_date with
  | Some b, Some s, Some e =>
      let rowid := next_rowid (seq_borrow_requests st)
                     (map BorrowRequest.id (borrow_requests st)) in
      Resolved
        (mkStore (users st) (books st)
           (borrow_requests st
            ++ [BorrowRequest.mk rowid b user_id s e "Pending"])
           (seq_users st) rowid)
  | None, _, _ => Rejected "NOT NULL constraint failed: borrow_requests.book_id"
  | _, None, _ =>
      Rejected "NOT NULL constraint failed: borrow_requests.start_date"
  | _, _, None =>
      Rejected "NOT NULL constraint failed: borrow_requests.end_date"
  end.

End Sql.


(** ** Requests and outcomes *)

Module Body.
(** [req.body]: the fields the handlers destructure. *)
Record t := mk {
  email : option string;
  password : option string;
  is_admin : option bool;
  status : option string;
  book_id : option Z;
  start_date : option string;
  end_date : option string
}.

Definition empty : t := mk None None None None None None None.
End Body.

Record Request := mkRequest {
  (** [req.headers['authorization']] *)
  authorization : option string;
  (** [req.params.id] *)
  params_id : Z;
  body : Body.t
}.

(** What [res.send] is given. *)
Inductive Sent :=
| Text (message : string)
| RequestRows (rows : list BorrowRequest.t)
| BookRows (rows : list Book.t).

(** Exceptions thrown outside every [try]. *)
Inductive Thrown :=
| BufferTypeError
| BcryptArgumentError.

Inductive Outcome :=
| Response (code : Z) (sent : Sent)
| Unhandled (e : Thrown).

(** [res.send(x)] without [res.status] answers 200. *)
Definition send (x : Sent) : Outcome := Response 200 x.

(** ** Middleware for Basic Authentication *)

(** The middleware either calls [next()] with [req.user] set, or ends the
    request itself. *)
Inductive Gate :=
| Next (user : User.t)
| Stop (o : Outcome).

Section Handlers.

Context {platform : Platform}.

(** [bcrypt.hashSync(password, 10)]: throws when [password] is [undefined]. *)
Definition hashSync (password : option string) (rounds : Z) : option string :=
  match password with
  | None => None
  | Some data => Some (bcrypt_hashSync data rounds)
  end.

(** The credentials the middleware reads from a header that is present:
    [None] when the header has no space, so that [split(' ')[1]] is
    [undefined] and [Buffer.from(undefined, 'base64')] throws; otherwise
    the first two pieces of the decoded text around [':'], the second
    being [undefined] when the text has no colon. *)
Definition credentials (authHeader : string)
  : option (option string * option string) :=
  match Js.index (Js.split " " authHeader) 1 with
  | None => None
  | Some base64Credentials =>
      let pieces := Js.split ":" (base64_toString base64Credentials) in
      Some (Js.index pieces 0, Js.index pieces 1)
  end.

Definition authenticateUser (st : Store) (req : Request) : Gate :=
  match authorization req with
  | None => Stop (Response 401 (Text "Authorization header missing"))
  | Some authHeader =>
      if negb (Js.truthy_string authHeader)
      then Stop (Response 401 (Text "Authorization header missing"))
      else
        match credentials authHeader with
        | None => Stop (Unhandled BufferTypeError)
        | Some (email, password) =>
            match Sql.get_user_by_email st email with
            | None => Stop (Response 401 (Text "Invalid credentials"))
            | Some user =>
                match password with
                | None => Stop (Unhandled BcryptArgumentError)
                | Some secret =>
                    if bcrypt_compareSync secret (User.password user)
                    then Next user
                    else Stop (Response 401 (Text "Invalid credentials"))
                end
            end
        end
  end.

(** ** Route handlers, given [req.user] *)

(** Librarian API: Create User *)
Definition createUser (user : User.t) (req : Request) (st : Store)
  : Outcome * Store :=
  if negb (Js.truthy_number (User.is_admin user))
  then (Response 403 (Text "Access denied"), st)
  else
    let email := Body.email (body req) in
    let password := Body.password (body req) in
    let is_admin :=
      match Body.is_admin (body req) with
      | None => false
      | Some b => b
      end in
    match hashSync password 10 with
    | None => (Unhandled BcryptArgumentError, st)
    | Some hashedPassword =>
        match Sql.insert_user st email hashedPassword (Z.b2z is_admin) with
        | Sql.Resolved st' => (send (Text "User created successfully"), st')
        | Sql.Rejected _ => (Response 400 (Text "Error creating user"), st)
        end
    end.

(** Librarian API: View Borrow Requests *)
Definition listRequests (user : User.t) (req : Request) (st : Store)
  : Outcome * Store :=
  if negb (Js.truthy_number (User.is_admin user))
  then (Response 403 (Text "Access denied"), st)
  else (send (RequestRows (Sql.all_borrow_requests st)), st).

(** Librarian API: Approve/Deny Request *)
Definition updateRequestStatus (user : User.t) (req : Request) (st : Store)
  : Outcome * Store :=
  if negb (Js.truthy_number (User.is_admin user))
  then (Response 403 (Text "Access denied"), st)
  else
    let id := params_id req in
    let status := Body.status (body req) in
    match Sql.update_status st status id with
    | Sql.Resolved st' => (send (Text "Request updated"), st')
    | Sql.Rejected _ => (Response 400 (Text "Error updating request"), st)
    end.

(** User API: Get Books *)
Definition listBooks (user : User.t) (req : Request) (st : Store)
  : Outcome * Store :=
  (send (BookRows (Sql.all_books st)), st).

(** User API: Borrow Book *)
Definition submitRequest (user : User.t) (req : Request) (st : Store)
  : Outcome * Store :=
  let book_id := Body.book_id (body req) in
  let start_date := Body.start_date (body req) in
  let end_date := Body.end_date (body req) in
  match Sql.get_conflict st book_id start_date end_date with
  | Some conflict =>
      (Response 400 (Text "Book already borrowed during the selected period"),
       st)
  | None =>
      match Sql.insert_borrow_request st book_id (User.id user)
              start_date end_date with
      | Sql.Resolved st' => (send (Text "Request submitted"), st')
      | Sql.Rejected _ => (Response 400 (Text "Error submitting request"), st)
      end
  end.

(** ** Routes: the middleware, then the handler *)

Definition route (handler : User.t -> Request -> Store -> Outcome * Store)
    (st : Store) (req : Request) : Outcome * Store :=
  match authenticateUser st req with
  | Next user => handler user req st
  | Stop o => (o, st)
  end.

Definition post_users := route createUser.
Definition get_borrow_requests := route listRequests.
Definition put_borrow_requests_id := route updateRequestStatus.
Definition get_books := route listBooks.
Definition post_borrow_requests := route submitRequest.

End Handlers.

(** ** An executable platform

    Base64 is decoded as [Buffer] does for well-formed input; [bcrypt] is
    replaced by a tagged copy of the secret, which is enough to run the
    handlers on concrete requests. *)

Module Reference.

Definition sextet (c : ascii) : option N :=
  let n := N_of_ascii c in
  if (65 <=? n)%N && (n <=? 90)%N then Some (n - 65)%N
  else if (97 <=? n)%N && (n <=? 122)%N then Some (n - 71)%N
  else if (48 <=? n)%N && (n <=? 57)%N then Some (n + 4)%N
  else if (n =? 43)%N || (n =? 45)%N then Some 62%N
  else if (n =? 47)%N || (n =? 95)%N then Some 63%N
  else None.

Fixpoint sextets (s : string) : list N :=
  match s with
  | EmptyString => []
  | String c rest =>
      if Ascii.eqb c "=" then []
      else match sextet c with
           | Some v => v :: sextets rest
           | None => sextets rest
           end
  end.

Fixpoint octets (l : list N) : string :=
  match l with
  | a :: b :: c :: d :: rest =>
      String (ascii_of_N (a * 4 + b / 16))
        (String (ascii_of_N ((b mod 16) * 16 + c / 4))
           (String (ascii_of_N ((c mod 4) * 64 + d)) (octets rest)))
  | [a; b; c] =>
      String (ascii_of_N (a * 4 + b / 16))
        (String (ascii_of_N ((b mod 16) * 16 + c / 4)) EmptyString)
  | [a; b] => String (ascii_of_N (a * 4 + b / 16)) EmptyString
  | _ => EmptyString
  end.

Definition tag : string := "$2b$10$".

Definition platform : Platform := {|
  base64_toString := fun s => octets (sextets s);
  bcrypt_hashSync := fun data _ => tag ++ data;
  bcrypt_compareSync := fun data hash => String.eqb hash (tag ++ data)
|}.

End Reference.

(** ** Vocabulary of the specification *)

(** Dates are compared as text. *)
Definition date_le (a b : string) : Prop := String.leb a b = true.
Definition date_lt (a b : string) : Prop := String.ltb a b = true.

(** [d] falls within the range of [r], ends included. *)
Definition falls_within (d : string) (r : BorrowRequest.t) : Prop :=
  date_le (BorrowRequest.start_date r) d /\ date_le d (BorrowRequest.end_date r).

Definition approved (r : BorrowRequest.t) : Prop :=
  BorrowRequest.status r = "Approved".

(** Two ranges overlap when they share a day. *)
Definition overlap (a b : BorrowRequest.t) : bool :=
  String.leb (BorrowRequest.start_date a) (BorrowRequest.end_date b)
  && String.leb (BorrowRequest.start_date b) (BorrowRequest.end_date a).

Definition double_booked (a b : BorrowRequest.t) : bool :=
  Z.eqb (BorrowRequest.book_id a) (BorrowRequest.book_id b)
  && String.eqb (BorrowRequest.status a) "Approved"
  && String.eqb (BorrowRequest.status b) "Approved"
  && overlap a b.

(** No two rows of the table are approved for the same book on
    overlapping ranges. *)
Fixpoint no_double_booking (rows : list BorrowRequest.t) : bool :=
  match rows with
  | [] => true
  | r :: rest =>
      forallb (fun r' => negb (double_booked r r')) rest
      && no_double_booking rest
  end.

(** The states the two mutating operations of the workflow can produce from
    the empty store, whoever the requesters and administrators are. *)
Inductive reachable : Store -> Prop :=
| reachable_empty : reachable empty_store
| reachable_submit (st : Store) (user : User.t) (req : Request) :
    reachable st -> reachable (snd (submitRequest user req st))
| reachable_update (st : Store) (user : User.t) (req : Request) :
    reachable st ->
    Js.truthy_number (User.is_admin user) = true ->
    reachable (snd (updateRequestStatus user req st)).

(** The row and its position in the table after a write. *)
Definition row_at (st : Store) (i : nat) : option BorrowRequest.t :=
  nth_error (borrow_requests st) i.

(** The table is in rowid order, without repetition, and no rowid exceeds
    the recorded sequence. *)
Definition rowids_ok (st : Store) : Prop :=
  StronglySorted Z.lt (map BorrowRequest.id (borrow_requests st))
  /\ forall x, In x (map BorrowRequest.id (borrow_requests st)) ->
               x <= seq_borrow_requests st.

(** Emails are unique, as [email TEXT UNIQUE] keeps them. *)
Definition emails_unique (st : Store) : Prop :=
  NoDup (map User.email (users st)).

(** ** Sample data *)

Module Sample.

Definition admin : User.t :=
  User.mk 1 "admin@lib.org" (Reference.tag ++ "secret") 1.

Definition reader : User.t :=
  User.mk 2 "reader@lib.org" (Reference.tag ++ "letmein") 0.

Definition basic_admin : string := "Basic YWRtaW5AbGliLm9yZzpzZWNyZXQ=".
Definition basic_admin_wrong : string := "Basic YWRtaW5AbGliLm9yZzp3cm9uZw==".
Definition basic_reader : string := "Basic cmVhZGVyQGxpYi5vcmc6bGV0bWVpbg==".
Definition basic_ghost : string := "Basic Z2hvc3RAbGliLm9yZzpzZWNyZXQ=".

Definition dune : Book.t := Book.mk 1 "Dune" "Frank Herbert".

Definition row (id : Z) (start_date end_date status : string)
  : BorrowRequest.t :=
  BorrowRequest.mk id 1 2 start_date end_date status.

Definition library (rows : list BorrowRequest.t) : Store :=
  mkStore [admin; reader] [dune] rows 2 (Z.of_nat (List.length rows)).

(** Book 1 is approved from 10 to 20 January. *)
Definition one_approved : Store :=
  library [row 1 "2024-01-10" "2024-01-20" "Approved"].

(** Book 1 is approved from 1 to 5 and from 10 to 20 January. *)
Definition two_approved : Store :=
  library [row 1 "2024-01-01" "2024-01-05" "Approved";
           row 2 "2024-01-10" "2024-01-20" "Approved"].

Definition one_pending : Store :=
  library [row 1 "2024-01-10" "2024-01-20" "Pending"].

(** [POST /borrow-requests] with [{book_id, start_date, end_date}]. *)
Definition borrow (auth : string) (book_id : Z) (start_date end_date : string)
  : Request :=
  mkRequest (Some auth) 0
    (Body.mk None None None None (Some book_id) (Some start_date)
       (Some end_date)).

(** [PUT /borrow-requests/:id] with [{status}]. *)
Definition decide (auth : string) (id : Z) (status : string) : Request :=
  mkRequest (Some auth) id
    (Body.mk None None None (Some status) None None None).

(** [POST /users] with [{email}] and no password. *)
Definition signup_without_password (auth : string) (email : string) : Request :=
  mkRequest (Some auth) 0
    (Body.mk (Some email) None None None None None None).

(** A request without a body. *)
Definition bare (auth : string) : Request :=
  mkRequest (Some auth) 0 Body.empty.

(** Two requests for book 1 on overlapping ranges are submitted, then the
    administrator approves the first and the second. *)
Definition submitted_twice : Store :=
  snd (submitRequest reader (borrow basic_reader 1 "2024-01-15" "2024-01-25")
         (snd (submitRequest reader
                 (borrow basic_reader 1 "2024-01-10" "2024-01-20")
                 empty_store))).

Definition approved_twice : Store :=
  snd (updateRequestStatus admin (decide basic_admin 2 "Approved")
         (snd (updateRequestStatus admin (decide basic_admin 1 "Approved")
                 submitted_twice))).

End Sample.

(** ** The application *)

(** The five routes registered on [app]. *)
Inductive Endpoint :=
| POST_users
| GET_borrow_requests
| PUT_borrow_requests_id
| GET_books
| POST_borrow_requests.

(** Express dispatches a request to the route of its method and path. *)
Definition app {platform : Platform} (endpoint : Endpoint) (st : Store)
    (req : Request) : Outcome * Store :=
  match endpoint with
  | POST_users => post_users st req
  | GET_borrow_requests => get_borrow_requests st req
  | PUT_borrow_requests_id => put_borrow_requests_id st req
  | GET_books => get_books st req
  | POST_borrow_requests => post_borrow_requests st req
  end.

(** [serves st st']: the server, started on [st], has reached [st'] after
    some requests, one after the other. *)
Inductive serves {platform : Platform} (st : Store) : Store -> Prop :=
| serves_none : serves st st
| serves_request (st' : Store) (endpoint : Endpoint) (req : Request) :
    serves st st' -> serves st (snd (app endpoint st' req)).

(** ** More vocabulary *)

(** [c] occurs in [s]. *)
Fixpoint occurs (c : ascii) (s : string) : bool :=
  match s with
  | EmptyString => false
  | String c' rest => Ascii.eqb c' c || occurs c rest
  end.

(** The [users] table is in rowid order and within its sequence. *)
Definition users_rowids_ok (st : Store) : Prop :=
  StronglySorted Z.lt (map User.id (users st))
  /\ forall x, In x (map User.id (users st)) -> x <= seq_users st.

(** What the schema keeps true of a database file. *)
Definition store_ok (st : Store) : Prop :=
  emails_unique st /\ users_rowids_ok st /\ rowids_ok st.

(** The columns of a request that no statement of [index.js] updates. *)
Definition same_request (r r' : BorrowRequest.t) : Prop :=
  BorrowRequest.id r' = BorrowRequest.id r
  /\ BorrowRequest.book_id r' = BorrowRequest.book_id r
  /\ BorrowRequest.user_id r' = BorrowRequest.user_id r
  /\ BorrowRequest.start_date r' = BorrowRequest.start_date r
  /\ BorrowRequest.end_date r' = BorrowRequest.end_date r.

(** The answers of the gate when it stops a request on a store without
    users. *)
Definition turned_away (o : Outcome) : Prop :=
  o = Response 401 (Text "Authorization header missing")
  \/ o = Response 401 (Text "Invalid credentials")
  \/ o = Unhandled BufferTypeError.

(** The role written for a new user: [is_admin = false] by default. *)
Definition requested_role (req : Request) : bool :=
  match Body.is_admin (body req) with
  | Some flag => flag
  | None => false
  end.

(** ** More sample data *)

Module Scenario.

(** [POST /users] with [{email, password, is_admin}]. *)
Definition signup (auth email password : string) (is_admin : option bool)
  : Request :=
  mkRequest (Some auth) 0
    (Body.mk (Some email) (Some password) is_admin None None None None).

(** "new@lib.org:hunter2" *)
Definition basic_new : string := "Basic bmV3QGxpYi5vcmc6aHVudGVyMg==".
(** "admin@lib.org", without colon *)
Definition basic_admin_bare : string := "Basic YWRtaW5AbGliLm9yZw==".
(** "ghost@lib.org", without colon *)
Definition basic_ghost_bare : string := "Basic Z2hvc3RAbGliLm9yZw==".
(** "reader@lib.org:pa" and "reader@lib.org:pa:ss" *)
Definition basic_reader_pa : string := "Basic cmVhZGVyQGxpYi5vcmc6cGE=".
Definition basic_reader_pa_ss : string := "Basic cmVhZGVyQGxpYi5vcmc6cGE6c3M=".


(** Book 1 has a pending and a denied request, book 2 an approved one. *)
Definition nothing_approved_for_book_1 : Store :=
  Sample.library
    [Sample.row 1 "2024-01-10" "2024-01-20" "Pending";
     Sample.row 2 "2024-01-12" "2024-01-18" "Denied";
     BorrowRequest.mk 3 2 2 "2024-01-01" "2024-01-31" "Approved"].

(** [POST /users] creates carol with the password "pa:ss" and dave with
    the password "pa". *)
Definition with_carol : Store :=
  snd (@createUser Reference.platform Sample.admin
         (signup Sample.basic_admin "carol@lib.org" "pa:ss" None)
         Sample.one_pending).

Definition with_dave : Store :=
  snd (@createUser Reference.platform Sample.admin
         (signup Sample.basic_admin "dave@lib.org" "pa" None)
         Sample.one_pending).

Definition carol : User.t :=
  User.mk 3 "carol@lib.org" (Reference.tag ++ "pa:ss") 0.

Definition dave : User.t :=
  User.mk 3 "dave@lib.org" (Reference.tag ++ "pa") 0.

(** "carol@lib.org:pa:ss" and "dave@lib.org:pa:ss" *)
Definition basic_carol : string := "Basic Y2Fyb2xAbGliLm9yZzpwYTpzcw==".
Definition basic_dave_pa_ss : string := "Basic ZGF2ZUBsaWIub3JnOnBhOnNz".

End Scenario.

(** * Properties *)

(** ** The helpers on concrete inputs *)

Example decode_admin :
  @base64_toString Reference.platform "YWRtaW5AbGliLm9yZzpzZWNyZXQ="
  = "admin@lib.org:secret".
Proof. reflexivity. Qed.

Example decode_two_pad :
  @base64_toString Reference.platform "cmVhZGVyQGxpYi5vcmc6bGV0bWVpbg=="
  = "reader@lib.org:letmein".
Proof. reflexivity. Qed.

Example split_colons : Js.split ":" "a:b:c" = ["a"; "b"; "c"].
Proof. reflexivity. Qed.

Example split_empty : Js.split ":" "" = [""].
Proof. reflexivity. Qed.

Example split_no_separator : Js.index (Js.split " " "Basic") 1 = None.
Proof. reflexivity. Qed.

Example between_inside :
  Sql.between "2024-01-15" "2024-01-10" "2024-01-20" = true.
Proof. reflexivity. Qed.

Example between_after :
  Sql.between "2024-01-25" "2024-01-10" "2024-01-20" = false.
Proof. reflexivity. Qed.

(** ** Text order *)

Lemma ltb_leb_false (a b : string) :
  String.ltb a b = true -> String.leb b a = false.
Proof.
  unfold String.ltb, String.leb.
  rewrite (String.compare_antisym a b).
  destruct (String.compare b a); simpl; congruence.
Qed.

Lemma between_iff (x lo hi : string) :
  Sql.between x lo hi = true <-> date_le lo x /\ date_le x hi.
Proof. unfold Sql.between, date_le. apply andb_true_iff. Qed.

Lemma between_below (x lo hi : string) :
  date_lt x lo -> Sql.between x lo hi = false.
Proof.
  intros H. unfold Sql.between.
  rewrite (ltb_leb_false _ _ H). reflexivity.
Qed.

Lemma between_above (x lo hi : string) :
  date_lt hi x -> Sql.between x lo hi = false.
Proof.
  intros H. unfold Sql.between.
  rewrite (ltb_leb_false _ _ H). apply andb_false_r.
Qed.

(** ** The conflict query *)

Lemma conflicts_iff (b : Z) (s e : string) (r : BorrowRequest.t) :
  Sql.conflicts (Some b) (Some s) (Some e) r = true <->
  BorrowRequest.book_id r = b /\ approved r
  /\ (falls_within s r \/ falls_within e r).
Proof.
  unfold Sql.conflicts, approved, falls_within.
  rewrite !andb_true_iff, orb_true_iff, !between_iff.
  rewrite Z.eqb_eq, String.eqb_eq. tauto.
Qed.

Lemma get_conflict_found (st : Store) (book_id : option Z)
    (start_date end_date : option string) (r : BorrowRequest.t) :
  In r (borrow_requests st) ->
  Sql.conflicts book_id start_date end_date r = true ->
  exists c, Sql.get_conflict st book_id start_date end_date = Some c.
Proof.
  intros Hin Hc. unfold Sql.get_conflict.
  destruct (find _ _) eqn:Hfind; [eauto |].
  pose proof (find_none _ _ Hfind r Hin) as Hno. congruence.
Qed.

Lemma get_conflict_none (st : Store) (book_id : option Z)
    (start_date end_date : option string) :
  (forall r, In r (borrow_requests st) ->
             Sql.conflicts book_id start_date end_date r = false) ->
  Sql.get_conflict st book_id start_date end_date = None.
Proof.
  intros Hall. unfold Sql.get_conflict.
  destruct (find _ _) eqn:Hfind; [| reflexivity].
  apply find_some in Hfind. destruct Hfind as [Hin Hc].
  rewrite (Hall _ Hin) in Hc. discriminate.
Qed.

(** ** Fresh rowids *)

Lemma fold_max_ge_seq (seq : Z) (ids : list Z) :
  seq <= fold_right Z.max seq ids.
Proof. induction ids as [| x ids IH]; simpl; lia. Qed.

Lemma fold_max_ge_in (seq : Z) (ids : list Z) (x : Z) :
  In x ids -> x <= fold_right Z.max seq ids.
Proof.
  induction ids as [| y ids IH]; simpl; [tauto |].
  intros [-> | Hin]; [lia |]. specialize (IH Hin). lia.
Qed.

Lemma next_rowid_fresh (seq : Z) (ids : list Z) :
  ~ In (Sql.next_rowid seq ids) ids.
Proof.
  intros Hin. apply (fold_max_ge_in seq) in Hin.
  unfold Sql.next_rowid in Hin. lia.
Qed.

(** ** Submitting a request *)

(** What [submitRequest] does when the conflict query returns no row and
    the three fields are present. *)
Lemma submitRequest_inserts (st : Store) (user : User.t) (req : Request)
    (b : Z) (s e : string) :
  Body.book_id (body req) = Some b ->
  Body.start_date (body req) = Some s ->
  Body.end_date (body req) = Some e ->
  Sql.get_conflict st (Some b) (Some s) (Some e) = None ->
  let rowid := Sql.next_rowid (seq_borrow_requests st)
                 (map BorrowRequest.id (borrow_requests st)) in
  submitRequest user req st =
  (Response 200 (Text "Request submitted"),
   mkStore (users st) (books st)
     (borrow_requests st
      ++ [BorrowRequest.mk rowid b (User.id user) s e "Pending"])
     (seq_users st) rowid).
Proof.
  intros Hb Hs He Hnone rowid. unfold submitRequest.
  rewrite Hb, Hs, He, Hnone. reflexivity.
Qed.

(** C1: when an Approved row of the same book holds the proposed start
    date or the proposed end date within its range (dates compared as
    text), [submitRequest] answers 400 with the conflict message and the
    store, hence the [borrow_requests] table, is unchanged. *)
Theorem C1_conflict_is_rejected (st : Store) (user : User.t) (req : Request)
    (b : Z) (s e : string) (existing : BorrowRequest.t) :
  Body.book_id (body req) = Some b ->
  Body.start_date (body req) = Some s ->
  Body.end_date (body req) = Some e ->
  In existing (borrow_requests st) ->
  BorrowRequest.book_id existing = b ->
  approved existing ->
  falls_within s existing \/ falls_within e existing ->
  submitRequest user req st =
  (Response 400 (Text "Book already borrowed during the selected period"), st).
Proof.
  intros Hb Hs He Hin Hbook Happ Hwithin. unfold submitRequest.
  rewrite Hb, Hs, He.
  destruct (get_conflict_found st (Some b) (Some s) (Some e) existing Hin)
    as [c Hc].
  - apply conflicts_iff. auto.
  - rewrite Hc. reflexivity.
Qed.

(** The example of the specification: the start date lies inside the
    approved range. *)
Lemma C1_conflict_is_rejected_witness :
  submitRequest Sample.reader
    (Sample.borrow Sample.basic_reader 1 "2024-01-15" "2024-01-25")
    Sample.one_approved =
  (Response 400 (Text "Book already borrowed during the selected period"),
   Sample.one_approved).
Proof.
  apply (C1_conflict_is_rejected Sample.one_approved Sample.reader
           (Sample.borrow Sample.basic_reader 1 "2024-01-15" "2024-01-25")
           1 "2024-01-15" "2024-01-25"
           (Sample.row 1 "2024-01-10" "2024-01-20" "Approved")).
  - reflexivity.
  - reflexivity.
  - reflexivity.
  - simpl. left. reflexivity.
  - reflexivity.
  - reflexivity.
  - left. split; reflexivity.
Defined.

(** ** A range that encloses an approved one *)

(** A row whose range lies strictly inside the proposed one does not
    satisfy the [WHERE] clause of the conflict query. *)
Lemma enclosed_row_no_conflict (b : option Z) (s e : string)
    (r : BorrowRequest.t) :
  date_lt s (BorrowRequest.start_date r) ->
  date_lt (BorrowRequest.end_date r) e ->
  Sql.conflicts b (Some s) (Some e) r = false.
Proof.
  intros Hs He. unfold Sql.conflicts.
  rewrite (between_below _ _ _ Hs), (between_above _ _ _ He).
  simpl. apply andb_false_r.
Qed.

(** C2, as stated, fails: the proposed range 5 to 25 January strictly
    encloses the approved range 10 to 20 January of book 1, yet its start
    date is the last day of another approved range of the same book, and
    the request is rejected with the conflict message. *)
Lemma C2_enclosing_rejected_by_other_row :
  let existing := Sample.row 2 "2024-01-10" "2024-01-20" "Approved" in
  let req := Sample.borrow Sample.basic_reader 1 "2024-01-05" "2024-01-25" in
  In existing (borrow_requests Sample.two_approved)
  /\ BorrowRequest.book_id existing = 1
  /\ approved existing
  /\ date_lt "2024-01-05" (BorrowRequest.start_date existing)
  /\ date_lt (BorrowRequest.end_date existing) "2024-01-25"
  /\ ~ falls_within "2024-01-05" existing
  /\ ~ falls_within "2024-01-25" existing
  /\ submitRequest Sample.reader req Sample.two_approved =
     (Response 400 (Text "Book already borrowed during the selected period"),
      Sample.two_approved).
Proof.
  simpl. repeat split; try reflexivity.
  - right. left. reflexivity.
  - intros [H _]. vm_compute in H. discriminate.
  - intros [_ H]. vm_compute in H. discriminate.
Qed.

(** C2, amended: an Approved row of the same book whose range lies strictly
    inside the proposed one ([s] before its start, [e] after its end) never
    satisfies the conflict query; and when no other Approved row of that
    book holds [s] or [e] within its range, the request is accepted: the
    answer is "Request submitted" and the Pending row is appended. *)
Theorem C2_enclosing_range_accepted (st : Store) (user : User.t)
    (req : Request) (b : Z) (s e : string) (existing : BorrowRequest.t) :
  Body.book_id (body req) = Some b ->
  Body.start_date (body req) = Some s ->
  Body.end_date (body req) = Some e ->
  In existing (borrow_requests st) ->
  BorrowRequest.book_id existing = b ->
  approved existing ->
  date_lt s (BorrowRequest.start_date existing) ->
  date_lt (BorrowRequest.end_date existing) e ->
  (forall r, In r (borrow_requests st) -> r <> existing ->
             BorrowRequest.book_id r = b -> approved r ->
             ~ falls_within s r /\ ~ falls_within e r) ->
  Sql.conflicts (Some b) (Some s) (Some e) existing = false
  /\ Sql.get_conflict st (Some b) (Some s) (Some e) = None
  /\ fst (submitRequest user req st) = Response 200 (Text "Request submitted")
  /\ exists rowid,
       borrow_requests (snd (submitRequest user req st)) =
       (borrow_requests st
        ++ [BorrowRequest.mk rowid b (User.id user) s e "Pending"])%list.
Proof.
  intros Hb Hs He Hin Hbook Happ Hlo Hhi Hothers.
  assert (Hrow : Sql.conflicts (Some b) (Some s) (Some e) existing = false)
    by (apply enclosed_row_no_conflict; assumption).
  assert (Hnone : Sql.get_conflict st (Some b) (Some s) (Some e) = None).
  { apply get_conflict_none. intros r Hr.
    destruct (Sql.conflicts (Some b) (Some s) (Some e) r) eqn:Hc;
      [| reflexivity].
    assert (Hne : r <> existing) by (intros ->; congruence).
    apply conflicts_iff in Hc. destruct Hc as (Hrb & Hra & Hw).
    destruct (Hothers r Hr Hne Hrb Hra) as [Hns Hne'].
    tauto. }
  rewrite (submitRequest_inserts st user req b s e Hb Hs He Hnone).
  simpl. repeat split; try assumption. eauto.
Qed.

(** The gap on the store of the specification's example: the range 5 to 25
    January encloses the approved range 10 to 20 January. *)
Lemma C2_enclosing_range_accepted_witness :
  fst (submitRequest Sample.reader
         (Sample.borrow Sample.basic_reader 1 "2024-01-05" "2024-01-25")
         Sample.one_approved)
  = Response 200 (Text "Request submitted").
Proof.
  apply (C2_enclosing_range_accepted Sample.one_approved Sample.reader
           (Sample.borrow Sample.basic_reader 1 "2024-01-05" "2024-01-25")
           1 "2024-01-05" "2024-01-25"
           (Sample.row 1 "2024-01-10" "2024-01-20" "Approved")).
  - reflexivity.
  - reflexivity.
  - reflexivity.
  - simpl. left. reflexivity.
  - reflexivity.
  - reflexivity.
  - reflexivity.
  - reflexivity.
  - intros r Hr Hne. simpl in Hr. destruct Hr as [<- | []].
    exfalso. apply Hne. reflexivity.
Defined.

(** ** Double booking *)

(** C3: the invariant fails in a reachable state.  From the empty store,
    two requests for book 1 over 10 to 20 and 15 to 25 January are both
    accepted as Pending, and approving one and then the other leaves two
    Approved rows of the same book that share 15 to 20 January. *)
Theorem C3_double_booking_is_reachable :
  reachable Sample.approved_twice
  /\ borrow_requests Sample.approved_twice =
     [Sample.row 1 "2024-01-10" "2024-01-20" "Approved";
      Sample.row 2 "2024-01-15" "2024-01-25" "Approved"]
  /\ no_double_booking (borrow_requests Sample.approved_twice) = false.
Proof.
  split; [| split; reflexivity].
  unfold Sample.approved_twice, Sample.submitted_twice.
  repeat (first [ apply reachable_update; [| reflexivity]
                | apply reachable_submit ]).
  apply reachable_empty.
Qed.

(** ** An accepted request *)

(** C4: a request that passes the conflict check adds exactly one row to
    the table, at its end, under a rowid no existing row has; the row is
    Pending and owned by the requester; the other tables are untouched; and
    the administrator's listing that follows returns the whole table in
    storage order, the new row being its last element. *)
Theorem C4_accepted_request_is_pending_and_listed (st : Store)
    (user librarian : User.t) (req listing : Request) (b : Z) (s e : string) :
  Body.book_id (body req) = Some b ->
  Body.start_date (body req) = Some s ->
  Body.end_date (body req) = Some e ->
  Sql.get_conflict st (Some b) (Some s) (Some e) = None ->
  Js.truthy_number (User.is_admin librarian) = true ->
  exists (row : BorrowRequest.t) (st' : Store),
    submitRequest user req st = (Response 200 (Text "Request submitted"), st')
    /\ borrow_requests st' = (borrow_requests st ++ [row])%list
    /\ BorrowRequest.status row = "Pending"
    /\ BorrowRequest.user_id row = User.id user
    /\ BorrowRequest.book_id row = b
    /\ ~ In (BorrowRequest.id row) (map BorrowRequest.id (borrow_requests st))
    /\ users st' = users st
    /\ books st' = books st
    /\ listRequests librarian listing st' =
       (Response 200 (RequestRows (borrow_requests st ++ [row])), st')
    /\ In row (borrow_requests st').
Proof.
  intros Hb Hs He Hnone Hadmin.
  pose proof (submitRequest_inserts st user req b s e Hb Hs He Hnone) as Hrun.
  simpl in Hrun.
  eexists. eexists. split; [exact Hrun |]. simpl.
  repeat split.
  - apply next_rowid_fresh.
  - unfold listRequests. rewrite Hadmin. reflexivity.
  - apply in_or_app. right. left. reflexivity.
Qed.

(** The second example of the specification: 5 to 8 January does not
    touch the approved range, and the request is accepted as Pending. *)
Lemma C4_accepted_request_is_pending_and_listed_witness :
  exists (row : BorrowRequest.t) (st' : Store),
    submitRequest Sample.reader
      (Sample.borrow Sample.basic_reader 1 "2024-01-05" "2024-01-08")
      Sample.one_approved
    = (Response 200 (Text "Request submitted"), st')
    /\ borrow_requests st' = (borrow_requests Sample.one_approved ++ [row])%list
    /\ BorrowRequest.status row = "Pending"
    /\ BorrowRequest.user_id row = 2
    /\ BorrowRequest.book_id row = 1
    /\ ~ In (BorrowRequest.id row)
           (map BorrowRequest.id (borrow_requests Sample.one_approved))
    /\ users st' = users Sample.one_approved
    /\ books st' = books Sample.one_approved
    /\ listRequests Sample.admin (Sample.bare Sample.basic_admin) st' =
       (Response 200
          (RequestRows (borrow_requests Sample.one_approved ++ [row])), st')
    /\ In row (borrow_requests st').
Proof.
  apply (C4_accepted_request_is_pending_and_listed Sample.one_approved
           Sample.reader Sample.admin
           (Sample.borrow Sample.basic_reader 1 "2024-01-05" "2024-01-08")
           (Sample.bare Sample.basic_admin) 1 "2024-01-05" "2024-01-08");
    reflexivity.
Defined.

(** ** Changing the status of a request *)

Lemma status_allowed_iff (s : string) :
  Sql.status_allowed (Some s) = true <->
  s = "Pending" \/ s = "Approved" \/ s = "Denied".
Proof.
  unfold Sql.status_allowed.
  rewrite !orb_true_iff, !String.eqb_eq. tauto.
Qed.

Lemma existsb_id_false (rows : list BorrowRequest.t) (id : Z) :
  (forall r, In r rows -> BorrowRequest.id r <> id) ->
  existsb (fun r => Z.eqb (BorrowRequest.id r) id) rows = false.
Proof.
  intros Hall. induction rows as [| r rows IH]; [reflexivity |].
  simpl. rewrite IH by (intros r' Hr'; apply Hall; right; exact Hr').
  destruct (Z.eqb_spec (BorrowRequest.id r) id) as [Heq | _];
    [| reflexivity].
  exfalso. apply (Hall r); [left; reflexivity | exact Heq].
Qed.

Lemma map_status_id (rows : list BorrowRequest.t) (id : Z) (s : string) :
  (forall r, In r rows -> BorrowRequest.id r <> id) ->
  map (fun r => if Z.eqb (BorrowRequest.id r) id
                then BorrowRequest.with_status s r else r) rows = rows.
Proof.
  intros Hall. induction rows as [| r rows IH]; [reflexivity |].
  simpl. rewrite IH by (intros r' Hr'; apply Hall; right; exact Hr').
  destruct (Z.eqb_spec (BorrowRequest.id r) id) as [Heq | _];
    [| reflexivity].
  exfalso. apply (Hall r); [left; reflexivity | exact Heq].
Qed.

(** The write of [updateRequestStatus] when the new status passes the
    constraints of the column. *)
Lemma update_status_allowed (st : Store) (s : string) (id : Z) :
  Sql.status_allowed (Some s) = true ->
  Sql.update_status st (Some s) id =
  Sql.Resolved
    (mkStore (users st) (books st)
       (map (fun r => if Z.eqb (BorrowRequest.id r) id
                      then BorrowRequest.with_status s r else r)
            (borrow_requests st))
       (seq_users st) (seq_borrow_requests st)).
Proof.
  intros Hok. unfold Sql.update_status. rewrite Hok.
  destruct (existsb _ _) eqn:Hex; [reflexivity |].
  rewrite map_status_id; [destruct st; reflexivity |].
  intros r Hr Heq.
  assert (Hcontra : existsb (fun r => Z.eqb (BorrowRequest.id r) id)
                      (borrow_requests st) = true).
  { apply existsb_exists. exists r. split; [exact Hr |].
    apply Z.eqb_eq. exact Heq. }
  congruence.
Qed.

(** A status outside the three values is refused as soon as a row
    matches: the answer is 400 and nothing is written. *)
Lemma update_refused_outside_check (st : Store) (admin : User.t)
    (req : Request) (r : BorrowRequest.t) :
  Js.truthy_number (User.is_admin admin) = true ->
  Sql.status_allowed (Body.status (body req)) = false ->
  In r (borrow_requests st) ->
  BorrowRequest.id r = params_id req ->
  updateRequestStatus admin req st =
  (Response 400 (Text "Error updating request"), st).
Proof.
  intros Hadmin Hbad Hin Hid. unfold updateRequestStatus, Sql.update_status.
  rewrite Hadmin. simpl.
  assert (Hex : existsb (fun r => Z.eqb (BorrowRequest.id r) (params_id req))
                  (borrow_requests st) = true).
  { apply existsb_exists. exists r. split; [exact Hin |].
    apply Z.eqb_eq. exact Hid. }
  rewrite Hex. destruct (Body.status (body req)) as [s |]; [| reflexivity].
  rewrite Hbad. reflexivity.
Qed.

(** C5, as stated, fails: the status "Returned" is a string, the row with
    id 1 exists, and the update is refused by the constraint of the
    column; the row keeps the status Pending. *)
Lemma C5_status_outside_check_is_refused :
  updateRequestStatus Sample.admin
    (Sample.decide Sample.basic_admin 1 "Returned") Sample.one_pending
  = (Response 400 (Text "Error updating request"), Sample.one_pending)
  /\ row_at Sample.one_pending 0 =
     Some (Sample.row 1 "2024-01-10" "2024-01-20" "Pending").
Proof. split; reflexivity. Qed.

(** C5, amended: for a new status among Pending, Approved and Denied, the
    administrator's update answers "Request updated"; the users and books
    are untouched; the table keeps its length and order; every row keeps
    its id, book, owner and dates; a row whose id is the requested one gets
    the new status and any other row is unchanged; and the listing that
    follows shows the new status on every row with that id. *)
Theorem C5_update_sets_status_only (st : Store) (admin : User.t)
    (req : Request) (s : string) :
  Js.truthy_number (User.is_admin admin) = true ->
  Body.status (body req) = Some s ->
  s = "Pending" \/ s = "Approved" \/ s = "Denied" ->
  exists st' : Store,
    updateRequestStatus admin req st =
    (Response 200 (Text "Request updated"), st')
    /\ users st' = users st
    /\ books st' = books st
    /\ List.length (borrow_requests st') = List.length (borrow_requests st)
    /\ (forall (i : nat) (r : BorrowRequest.t),
          row_at st i = Some r ->
          exists r' : BorrowRequest.t,
            row_at st' i = Some r'
            /\ BorrowRequest.id r' = BorrowRequest.id r
            /\ BorrowRequest.book_id r' = BorrowRequest.book_id r
            /\ BorrowRequest.user_id r' = BorrowRequest.user_id r
            /\ BorrowRequest.start_date r' = BorrowRequest.start_date r
            /\ BorrowRequest.end_date r' = BorrowRequest.end_date r
            /\ (BorrowRequest.id r = params_id req ->
                BorrowRequest.status r' = s)
            /\ (BorrowRequest.id r <> params_id req -> r' = r))
    /\ listRequests admin req st' =
       (Response 200 (RequestRows (borrow_requests st')), st')
    /\ (forall r' : BorrowRequest.t,
          In r' (borrow_requests st') ->
          BorrowRequest.id r' = params_id req ->
          BorrowRequest.status r' = s).
Proof.
  intros Hadmin Hs Hok. apply status_allowed_iff in Hok.
  eexists. split.
  { unfold updateRequestStatus. rewrite Hadmin, Hs. simpl.
    rewrite (update_status_allowed st s (params_id req) Hok). reflexivity. }
  simpl. repeat split.
  - apply length_map.
  - intros i r Hr. unfold row_at in *. simpl.
    rewrite nth_error_map, Hr. simpl.
    destruct (Z.eqb_spec (BorrowRequest.id r) (params_id req)) as [Heq | Hne].
    + eexists. split; [reflexivity |]. simpl. repeat split. tauto.
    + exists r. repeat split; tauto.
  - unfold listRequests. rewrite Hadmin. reflexivity.
  - intros r' Hin Hid. apply in_map_iff in Hin.
    destruct Hin as (r & Hr & _). subst r'.
    destruct (Z.eqb_spec (BorrowRequest.id r) (params_id req)) as [_ | Hne];
      [reflexivity |].
    contradiction.
Qed.

(** Approving the pending request of the sample store. *)
Lemma C5_update_sets_status_only_witness :
  exists st' : Store,
    updateRequestStatus Sample.admin
      (Sample.decide Sample.basic_admin 1 "Approved") Sample.one_pending
    = (Response 200 (Text "Request updated"), st')
    /\ row_at st' 0 = Some (Sample.row 1 "2024-01-10" "2024-01-20" "Approved").
Proof.
  destruct (C5_update_sets_status_only Sample.one_pending Sample.admin
              (Sample.decide Sample.basic_admin 1 "Approved") "Approved")
    as (st' & Hrun & _).
  - reflexivity.
  - reflexivity.
  - right. left. reflexivity.
  - exists st'. split; [exact Hrun |].
    injection Hrun as <-. reflexivity.
Defined.

(** ** An id that matches no row *)

(** C9: when no row has the requested id, the administrator's update
    answers "Request updated" whatever the new status is, and the store is
    unchanged. *)
Theorem C9_update_of_unknown_id_succeeds (st : Store) (admin : User.t)
    (req : Request) :
  Js.truthy_number (User.is_admin admin) = true ->
  (forall r, In r (borrow_requests st) -> BorrowRequest.id r <> params_id req) ->
  updateRequestStatus admin req st =
  (Response 200 (Text "Request updated"), st).
Proof.
  intros Hadmin Hnone. unfold updateRequestStatus, Sql.update_status.
  rewrite Hadmin. simpl.
  rewrite (existsb_id_false _ _ Hnone). reflexivity.
Qed.

(** No row of the sample store has id 7; the status is not even one the
    column allows. *)
Lemma C9_update_of_unknown_id_succeeds_witness :
  updateRequestStatus Sample.admin
    (Sample.decide Sample.basic_admin 7 "Returned") Sample.one_pending
  = (Response 200 (Text "Request updated"), Sample.one_pending).
Proof.
  apply (C9_update_of_unknown_id_succeeds Sample.one_pending Sample.admin
           (Sample.decide Sample.basic_admin 7 "Returned")).
  - reflexivity.
  - intros r Hr. simpl in Hr. destruct Hr as [<- | []]. simpl. lia.
Defined.

(** ** Dates are not validated *)

(** C10: whatever the two strings are (in any order, dates or not), when
    the conflict query returns no row they are stored as they were sent in
    a new Pending row. *)
Theorem C10_dates_are_stored_verbatim (st : Store) (user : User.t)
    (req : Request) (b : Z) (s e : string) :
  Body.book_id (body req) = Some b ->
  Body.start_date (body req) = Some s ->
  Body.end_date (body req) = Some e ->
  Sql.get_conflict st (Some b) (Some s) (Some e) = None ->
  exists (rowid : Z) (st' : Store),
    submitRequest user req st = (Response 200 (Text "Request submitted"), st')
    /\ borrow_requests st' =
       (borrow_requests st
        ++ [BorrowRequest.mk rowid b (User.id user) s e "Pending"])%list.
Proof.
  intros Hb Hs He Hnone.
  pose proof (submitRequest_inserts st user req b s e Hb Hs He Hnone) as Hrun.
  simpl in Hrun. eexists. eexists. split; [exact Hrun | reflexivity].
Qed.

(** Neither string is a date, and the end sorts before the start. *)
Lemma C10_dates_are_stored_verbatim_witness :
  date_lt "2023-99-99" "tomorrow"
  /\ exists (rowid : Z) (st' : Store),
       submitRequest Sample.reader
         (Sample.borrow Sample.basic_reader 1 "tomorrow" "2023-99-99")
         Sample.one_approved
       = (Response 200 (Text "Request submitted"), st')
       /\ borrow_requests st' =
          (borrow_requests Sample.one_approved
           ++ [BorrowRequest.mk rowid 1 2 "tomorrow" "2023-99-99" "Pending"])%list.
Proof.
  split; [reflexivity |].
  apply (C10_dates_are_stored_verbatim Sample.one_approved Sample.reader
           (Sample.borrow Sample.basic_reader 1 "tomorrow" "2023-99-99")
           1 "tomorrow" "2023-99-99"); reflexivity.
Defined.

(** ** The gate and the role check *)

Lemma find_by_unique_email (rows : list User.t) (user : User.t) :
  NoDup (map User.email rows) ->
  In user rows ->
  find (fun u => String.eqb (User.email u) (User.email user)) rows = Some user.
Proof.
  induction rows as [| v rows IH]; simpl; [tauto |].
  intros Hnodup Hin. inversion Hnodup as [| x l Hfresh Hrest]; subst.
  destruct Hin as [-> | Hin].
  - rewrite String.eqb_refl. reflexivity.
  - destruct (String.eqb_spec (User.email v) (User.email user)) as [Heq | _].
    + exfalso. apply Hfresh. rewrite Heq. apply in_map. exact Hin.
    + apply IH; assumption.
Qed.

Lemma find_by_unknown_email (rows : list User.t) (identity : string) :
  (forall u, In u rows -> User.email u <> identity) ->
  find (fun u => String.eqb (User.email u) identity) rows = None.
Proof.
  intros Hall. destruct (find _ rows) as [u |] eqn:Hfind; [| reflexivity].
  apply find_some in Hfind. destruct Hfind as [Hin Heq].
  apply String.eqb_eq in Heq. exfalso. exact (Hall u Hin Heq).
Qed.

(** A header with credentials is not empty. *)
Lemma credentials_truthy {platform : Platform} (authHeader : string)
    (pair : option string * option string) :
  credentials authHeader = Some pair ->
  Js.truthy_string authHeader = true.
Proof.
  destruct authHeader; [discriminate | reflexivity].
Qed.

Section Gate.

Context {platform : Platform}.

Lemma route_next (handler : User.t -> Request -> Store -> Outcome * Store)
    (st : Store) (req : Request) (user : User.t) :
  authenticateUser st req = Next user ->
  route handler st req = handler user req st.
Proof. intros H. unfold route. rewrite H. reflexivity. Qed.

(** The middleware never answers 403. *)
Lemma gate_never_403 (st : Store) (req : Request) (sent : Sent) :
  authenticateUser st req <> Stop (Response 403 sent).
Proof.
  unfold authenticateUser.
  destruct (authorization req) as [h |]; [| discriminate].
  destruct (negb (Js.truthy_string h)); [discriminate |].
  destruct (credentials h) as [[email password] |]; [| discriminate].
  destruct (Sql.get_user_by_email st email) as [u |]; [| discriminate].
  destruct password as [secret |]; [| discriminate].
  destruct (bcrypt_compareSync secret (User.password u)); discriminate.
Qed.

(** C6: when the gate has resolved a user whose [is_admin] is falsy, the
    three librarian routes answer 403 "Access denied" whatever the body
    and the path parameter are, and leave the store as it was; the gate
    itself never answers 403, so the signal differs from every
    authentication failure. *)
Theorem C6_ordinary_user_is_denied (st : Store) (req : Request)
    (user : User.t) :
  authenticateUser st req = Next user ->
  Js.truthy_number (User.is_admin user) = false ->
  post_users st req = (Response 403 (Text "Access denied"), st)
  /\ get_borrow_requests st req = (Response 403 (Text "Access denied"), st)
  /\ put_borrow_requests_id st req = (Response 403 (Text "Access denied"), st)
  /\ (forall (st' : Store) (req' : Request) (sent : Sent),
        authenticateUser st' req' <> Stop (Response 403 sent)).
Proof.
  intros Hgate Hrole.
  unfold post_users, get_borrow_requests, put_borrow_requests_id.
  rewrite !(route_next _ st req user Hgate).
  unfold createUser, listRequests, updateRequestStatus.
  rewrite Hrole. simpl. repeat split. apply gate_never_403.
Qed.

(** The gate decides on the pair it reads from the header.  Let that pair
    be [identity], [secret] and let emails be unique in the store.  For a
    stored user with that email the gate calls [next] with exactly that
    row as [req.user] when [secret] matches the stored hash, and answers
    401 "Invalid credentials" when it does not; when no stored user has
    that email it answers the same 401 "Invalid credentials". *)
Lemma gate_decides_on_the_pair_read (st : Store) (req : Request)
    (authHeader identity secret : string) :
  emails_unique st ->
  authorization req = Some authHeader ->
  credentials authHeader = Some (Some identity, Some secret) ->
  (forall user : User.t,
      In user (users st) -> User.email user = identity ->
      authenticateUser st req =
      if bcrypt_compareSync secret (User.password user)
      then Next user
      else Stop (Response 401 (Text "Invalid credentials")))
  /\ ((forall user : User.t, In user (users st) -> User.email user <> identity) ->
      authenticateUser st req = Stop (Response 401 (Text "Invalid credentials"))).
Proof.
  intros Huniq Hauth Hcred. unfold authenticateUser.
  rewrite Hauth, (credentials_truthy _ _ Hcred), Hcred. simpl. split.
  - intros user Hin <-.
    rewrite (find_by_unique_email _ user Huniq Hin). reflexivity.
  - intros Hunknown.
    rewrite (find_by_unknown_email _ identity Hunknown). reflexivity.
Qed.

(** C8: an administrator's [POST /users] whose body has no password ends
    in an exception thrown by [bcrypt.hashSync] before the [try]: no
    response among 200, 400, 401 and 403 is sent, and nothing is written. *)
Theorem C8_missing_password_is_unhandled (st : Store) (admin : User.t)
    (req : Request) :
  Js.truthy_number (User.is_admin admin) = true ->
  Body.password (body req) = None ->
  createUser admin req st = (Unhandled BcryptArgumentError, st).
Proof.
  intros Hadmin Hpw. unfold createUser. rewrite Hadmin, Hpw. reflexivity.
Qed.

(** With a password in the body the same handler always answers, with 200
    or with 400. *)
Lemma createUser_with_password_answers (st : Store) (admin : User.t)
    (req : Request) (secret : string) :
  Js.truthy_number (User.is_admin admin) = true ->
  Body.password (body req) = Some secret ->
  fst (createUser admin req st) = Response 200 (Text "User created successfully")
  \/ createUser admin req st = (Response 400 (Text "Error creating user"), st).
Proof.
  intros Hadmin Hpw. unfold createUser. rewrite Hadmin, Hpw. simpl.
  destruct (Sql.insert_user _ _ _ _); [left | right]; reflexivity.
Qed.

End Gate.

(** ** The gate on the executable platform *)

Lemma sample_emails_unique (rows : list BorrowRequest.t) :
  emails_unique (Sample.library rows).
Proof.
  unfold emails_unique. simpl.
  repeat constructor; simpl; intuition discriminate.
Qed.

(** The reader of the sample store is refused on the three librarian
    routes, whatever the request carries. *)
Lemma C6_ordinary_user_is_denied_witness :
  let req := Sample.decide Sample.basic_reader 1 "Approved" in
  @post_users Reference.platform Sample.one_pending req
  = (Response 403 (Text "Access denied"), Sample.one_pending)
  /\ @get_borrow_requests Reference.platform Sample.one_pending req
     = (Response 403 (Text "Access denied"), Sample.one_pending)
  /\ @put_borrow_requests_id Reference.platform Sample.one_pending req
     = (Response 403 (Text "Access denied"), Sample.one_pending).
Proof.
  intros req.
  destruct (@C6_ordinary_user_is_denied Reference.platform
              Sample.one_pending req Sample.reader)
    as (Hpost & Hget & Hput & _).
  - reflexivity.
  - reflexivity.
  - repeat split; assumption.
Defined.

(** The administrator with the right secret is resolved to the stored
    row; a wrong secret and an unknown email get the same answer. *)
Lemma gate_decides_on_the_pair_read_sample :
  @authenticateUser Reference.platform Sample.one_pending
    (Sample.bare Sample.basic_admin) = Next Sample.admin
  /\ @authenticateUser Reference.platform Sample.one_pending
       (Sample.bare Sample.basic_admin_wrong)
     = Stop (Response 401 (Text "Invalid credentials"))
  /\ @authenticateUser Reference.platform Sample.one_pending
       (Sample.bare Sample.basic_ghost)
     = Stop (Response 401 (Text "Invalid credentials")).
Proof.
  split; [| split].
  - destruct (@gate_decides_on_the_pair_read Reference.platform
                Sample.one_pending (Sample.bare Sample.basic_admin)
                Sample.basic_admin "admin@lib.org" "secret")
      as [Hknown _].
    + apply sample_emails_unique.
    + reflexivity.
    + reflexivity.
    + exact (Hknown Sample.admin (or_introl eq_refl) eq_refl).
  - destruct (@gate_decides_on_the_pair_read Reference.platform
                Sample.one_pending (Sample.bare Sample.basic_admin_wrong)
                Sample.basic_admin_wrong "admin@lib.org" "wrong")
      as [Hknown _].
    + apply sample_emails_unique.
    + reflexivity.
    + reflexivity.
    + exact (Hknown Sample.admin (or_introl eq_refl) eq_refl).
  - destruct (@gate_decides_on_the_pair_read Reference.platform
                Sample.one_pending (Sample.bare Sample.basic_ghost)
                Sample.basic_ghost "ghost@lib.org" "secret")
      as [_ Hunknown].
    + apply sample_emails_unique.
    + reflexivity.
    + reflexivity.
    + apply Hunknown. intros user Hin. simpl in Hin.
      destruct Hin as [<- | [<- | []]]; discriminate.
Defined.

(** The administrator of the sample store posts [{email}] alone. *)
Lemma C8_missing_password_is_unhandled_witness :
  @createUser Reference.platform Sample.admin
    (Sample.signup_without_password Sample.basic_admin "new@lib.org")
    Sample.one_pending
  = (Unhandled BcryptArgumentError, Sample.one_pending).
Proof.
  apply (@C8_missing_password_is_unhandled Reference.platform
           Sample.one_pending Sample.admin
           (Sample.signup_without_password Sample.basic_admin "new@lib.org"));
    reflexivity.
Defined.

(** The same request through the route, gate included. *)
Example post_users_without_password :
  @post_users Reference.platform Sample.one_pending
    (Sample.signup_without_password Sample.basic_admin "new@lib.org")
  = (Unhandled BcryptArgumentError, Sample.one_pending).
Proof. reflexivity. Qed.

(** [split(':')] keeps the first two pieces: of the secret "pa:ss" the
    gate compares "pa". *)
Example secret_with_colon :
  @credentials Reference.platform "Basic cmVhZGVyQGxpYi5vcmc6cGE6c3M="
  = Some (Some "reader@lib.org", Some "pa").
Proof. reflexivity. Qed.

(** A header without a space leaves nothing to decode. *)
Example header_without_space :
  @authenticateUser Reference.platform Sample.one_pending (Sample.bare "Basic")
  = Stop (Unhandled BufferTypeError).
Proof. reflexivity. Qed.

(** ** Invariants of the store *)

(** [POST /users] keeps emails unique. *)
Lemma createUser_keeps_emails_unique {platform : Platform} (st : Store)
    (user : User.t) (req : Request) :
  emails_unique st -> emails_unique (snd (createUser user req st)).
Proof.
  intros Huniq. unfold createUser.
  destruct (negb _); [exact Huniq |].
  destruct (hashSync _ _) as [hashed |]; [| exact Huniq].
  unfold Sql.insert_user.
  destruct (Body.email (body req)) as [e |]; [| exact Huniq].
  destruct (existsb _ _) eqn:Hex; [exact Huniq |].
  unfold emails_unique. simpl. rewrite map_app. simpl.
  apply NoDup_app; [exact Huniq | repeat constructor; simpl; tauto |].
  intros x Hx [<- | []].
  apply in_map_iff in Hx. destruct Hx as (u & Heq & Hin).
  assert (Htrue : existsb (fun u => String.eqb (User.email u) e) (users st) = true).
  { apply existsb_exists. exists u. split; [exact Hin |].
    apply String.eqb_eq. exact Heq. }
  congruence.
Qed.

Lemma sorted_snoc (ids : list Z) (y : Z) :
  StronglySorted Z.lt ids ->
  (forall x, In x ids -> x < y) ->
  StronglySorted Z.lt (ids ++ [y]).
Proof.
  induction ids as [| x ids IH]; simpl; intros Hsorted Hbelow.
  - repeat constructor.
  - inversion Hsorted as [| x' l Hrest Hall]; subst. constructor.
    + apply IH; [exact Hrest | intros z Hz; apply Hbelow; right; exact Hz].
    + apply Forall_app. split; [exact Hall |].
      constructor; [| constructor]. apply Hbelow. left. reflexivity.
Qed.

Lemma sorted_distinct (ids : list Z) : StronglySorted Z.lt ids -> NoDup ids.
Proof.
  induction 1 as [| x ids _ IH Hall]; constructor; [| exact IH].
  intros Hin. rewrite Forall_forall in Hall. specialize (Hall x Hin). lia.
Qed.

(** A new request goes to the end of the table in rowid order. *)
Lemma submitRequest_keeps_rowids (st : Store) (user : User.t) (req : Request) :
  rowids_ok st -> rowids_ok (snd (submitRequest user req st)).
Proof.
  intros [Hsorted Hle]. unfold submitRequest.
  destruct (Sql.get_conflict _ _ _ _); [split; assumption |].
  unfold Sql.insert_borrow_request.
  destruct (Body.book_id (body req)) as [b |]; [| split; assumption].
  destruct (Body.start_date (body req)) as [s |]; [| split; assumption].
  destruct (Body.end_date (body req)) as [e |]; [| split; assumption].
  unfold rowids_ok. simpl. rewrite map_app. simpl. split.
  - apply sorted_snoc; [exact Hsorted |].
    intros x Hx. apply (fold_max_ge_in (seq_borrow_requests st)) in Hx.
    unfold Sql.next_rowid. lia.
  - intros x Hx. apply in_app_or in Hx. destruct Hx as [Hx | [<- | []]].
    + apply (fold_max_ge_in (seq_borrow_requests st)) in Hx.
      unfold Sql.next_rowid. lia.
    + lia.
Qed.

Lemma map_id_with_status (rows : list BorrowRequest.t) (id : Z) (s : string) :
  map BorrowRequest.id
    (map (fun r => if Z.eqb (BorrowRequest.id r) id
                   then BorrowRequest.with_status s r else r) rows)
  = map BorrowRequest.id rows.
Proof.
  rewrite map_map. apply map_ext. intros r.
  destruct (Z.eqb (BorrowRequest.id r) id); reflexivity.
Qed.

Lemma updateRequestStatus_keeps_rowids (st : Store) (user : User.t)
    (req : Request) :
  rowids_ok st -> rowids_ok (snd (updateRequestStatus user req st)).
Proof.
  intros Hok. unfold updateRequestStatus.
  destruct (negb _); [exact Hok |].
  unfold Sql.update_status.
  destruct (existsb _ _); [| exact Hok].
  destruct (Body.status (body req)) as [s |]; [| exact Hok].
  destruct (Sql.status_allowed (Some s)); [| exact Hok].
  unfold rowids_ok. simpl. rewrite map_id_with_status. exact Hok.
Qed.

(** In every state the workflow reaches the table is in rowid order. *)
Lemma reachable_rowids_ok (st : Store) : reachable st -> rowids_ok st.
Proof.
  induction 1 as [| st user req _ IH | st user req _ IH _].
  - split; [constructor | intros x []].
  - apply submitRequest_keeps_rowids. exact IH.
  - apply updateRequestStatus_keeps_rowids. exact IH.
Qed.

(** So an id names at most one row of a reachable table. *)
Lemma reachable_rowids_distinct (st : Store) :
  reachable st -> NoDup (map BorrowRequest.id (borrow_requests st)).
Proof.
  intros Hreach. apply sorted_distinct.
  exact (proj1 (reachable_rowids_ok st Hreach)).
Qed.

(** * Further properties of the handlers *)

(** ** [split] *)

Lemma split_without_separator (sep : ascii) (s : string) :
  occurs sep s = false -> Js.split sep s = [s].
Proof.
  induction s as [| c s IH]; simpl; [reflexivity |].
  intros H. apply orb_false_iff in H. destruct H as [Hc Hs].
  rewrite Hc, (IH Hs). reflexivity.
Qed.

Lemma split_at_separator (sep : ascii) (a rest : string) :
  occurs sep a = false ->
  Js.split sep (a ++ String sep rest) = a :: Js.split sep rest.
Proof.
  induction a as [| c a IH]; simpl.
  - intros _. rewrite Ascii.eqb_refl. reflexivity.
  - intros H. apply orb_false_iff in H. destruct H as [Hc Ha].
    rewrite Hc, (IH Ha). reflexivity.
Qed.

(** ** Reading the header *)

Section Header.

Context {platform : Platform}.

(** The second piece of a header made of a scheme, a space and a token. *)
Lemma header_token (scheme token : string) :
  occurs " " scheme = false ->
  occurs " " token = false ->
  Js.index (Js.split " " (scheme ++ " " ++ token)) 1 = Some token.
Proof.
  intros Hscheme Htoken. simpl append.
  rewrite (split_at_separator " " scheme token Hscheme).
  rewrite (split_without_separator " " token Htoken). reflexivity.
Qed.

(** A header [scheme token] whose token decodes to [identity:secret],
    neither part holding a colon, is read as that pair. *)
Theorem credentials_of_basic_header (scheme token identity secret : string) :
  occurs " " scheme = false ->
  occurs " " token = false ->
  base64_toString token = identity ++ ":" ++ secret ->
  occurs ":" identity = false ->
  occurs ":" secret = false ->
  credentials (scheme ++ " " ++ token) = Some (Some identity, Some secret).
Proof.
  intros Hscheme Htoken Hdecoded Hid Hsecret. unfold credentials.
  rewrite (header_token scheme token Hscheme Htoken), Hdecoded.
  simpl append. rewrite (split_at_separator ":" identity secret Hid).
  rewrite (split_without_separator ":" secret Hsecret). reflexivity.
Qed.

(** A secret is read up to its first colon: the header of
    [identity:secret:more] gets the answer of the header of
    [identity:secret], on every store. *)
Theorem secret_is_cut_at_colon (st : Store) (req req' : Request)
    (scheme token token' identity secret more : string) :
  occurs " " scheme = false ->
  occurs " " token = false ->
  occurs " " token' = false ->
  occurs ":" identity = false ->
  occurs ":" secret = false ->
  base64_toString token = identity ++ ":" ++ secret ++ ":" ++ more ->
  base64_toString token' = identity ++ ":" ++ secret ->
  authorization req = Some (scheme ++ " " ++ token) ->
  authorization req' = Some (scheme ++ " " ++ token') ->
  credentials (scheme ++ " " ++ token) = Some (Some identity, Some secret)
  /\ authenticateUser st req = authenticateUser st req'.
Proof.
  intros Hscheme Htoken Htoken' Hid Hsecret Hdecoded Hdecoded' Hreq Hreq'.
  assert (Hcut : credentials (scheme ++ " " ++ token)
                 = Some (Some identity, Some secret)).
  { unfold credentials.
    rewrite (header_token scheme token Hscheme Htoken), Hdecoded.
    simpl append. rewrite (split_at_separator ":" identity _ Hid).
    rewrite (split_at_separator ":" secret more Hsecret).
    destruct (Js.split ":" more); reflexivity. }
  split; [exact Hcut |].
  assert (Hcut' : credentials (scheme ++ " " ++ token')
                  = Some (Some identity, Some secret)).
  { unfold credentials.
    rewrite (header_token scheme token' Hscheme Htoken'), Hdecoded'.
    simpl append. rewrite (split_at_separator ":" identity secret Hid).
    rewrite (split_without_separator ":" secret Hsecret). reflexivity. }
  unfold authenticateUser. rewrite Hreq, Hreq'.
  rewrite (credentials_truthy _ _ Hcut), (credentials_truthy _ _ Hcut').
  rewrite Hcut, Hcut'. reflexivity.
Qed.

(** When the decoded text holds no colon the secret is [undefined]: the
    gate answers 401 if no user has that text as email, and
    [bcrypt.compareSync] throws if one has. *)
Theorem gate_without_colon (st : Store) (req : Request)
    (scheme token : string) :
  occurs " " scheme = false ->
  occurs " " token = false ->
  occurs ":" (base64_toString token) = false ->
  authorization req = Some (scheme ++ " " ++ token) ->
  ((exists user, In user (users st)
                 /\ User.email user = base64_toString token) ->
   authenticateUser st req = Stop (Unhandled BcryptArgumentError))
  /\ ((forall user, In user (users st) ->
                    User.email user <> base64_toString token) ->
      authenticateUser st req =
      Stop (Response 401 (Text "Invalid credentials"))).
Proof.
  intros Hscheme Htoken Hcolon Hreq.
  assert (Hcred : credentials (scheme ++ " " ++ token)
                  = Some (Some (base64_toString token), None)).
  { unfold credentials.
    rewrite (header_token scheme token Hscheme Htoken).
    rewrite (split_without_separator ":" _ Hcolon). reflexivity. }
  unfold authenticateUser.
  rewrite Hreq, (credentials_truthy _ _ Hcred), Hcred. simpl. split.
  - intros (user & Hin & Hemail).
    destruct (find _ (users st)) as [u |] eqn:Hfind; [reflexivity |].
    pose proof (find_none _ _ Hfind user Hin) as Hno. simpl in Hno.
    rewrite Hemail, String.eqb_refl in Hno. discriminate.
  - intros Hunknown.
    rewrite (find_by_unknown_email _ _ Hunknown). reflexivity.
Qed.

(** The gate lets a request through only as a stored user whose email is
    the identity read from the header and whose hash matches the secret
    read from it. *)
Theorem gate_admits_stored_users_only (st : Store) (req : Request)
    (user : User.t) :
  authenticateUser st req = Next user ->
  In user (users st)
  /\ exists authHeader secret,
       authorization req = Some authHeader
       /\ credentials authHeader = Some (Some (User.email user), Some secret)
       /\ bcrypt_compareSync secret (User.password user) = true.
Proof.
  unfold authenticateUser.
  destruct (authorization req) as [h |]; [| discriminate].
  destruct (negb (Js.truthy_string h)); [discriminate |].
  destruct (credentials h) as [[email password] |] eqn:Hcred; [| discriminate].
  destruct email as [identity |]; simpl; [| discriminate].
  destruct (find _ (users st)) as [u |] eqn:Hfind; [| discriminate].
  destruct password as [secret |]; [| discriminate].
  destruct (bcrypt_compareSync secret (User.password u)) eqn:Hcmp;
    [| discriminate].
  intros [= <-]. apply find_some in Hfind. destruct Hfind as [Hin Heq].
  apply String.eqb_eq in Heq. split; [exact Hin |].
  exists h, secret. rewrite Heq. auto.
Qed.

End Header.

(** ** Creating users *)

Lemma find_after_misses {A : Type} (f : A -> bool) (l : list A) (y : A) :
  (forall x, In x l -> f x = false) ->
  find f (l ++ [y]) = find f [y].
Proof.
  induction l as [| x l IH]; simpl; intros Hall; [reflexivity |].
  rewrite (Hall x (or_introl eq_refl)).
  apply IH. intros z Hz. apply Hall. right. exact Hz.
Qed.

Lemma find_before_miss {A : Type} (f : A -> bool) (l : list A) (y : A) :
  f y = false -> find f (l ++ [y]) = find f l.
Proof.
  intros Hy. induction l as [| x l IH]; simpl.
  - rewrite Hy. reflexivity.
  - destruct (f x); [reflexivity | exact IH].
Qed.

Lemma existsb_email_fresh (rows : list User.t) (e : string) :
  (forall u, In u rows -> User.email u <> e) ->
  existsb (fun u => String.eqb (User.email u) e) rows = false.
Proof.
  intros Hfresh. destruct (existsb _ rows) eqn:Hex; [| reflexivity].
  apply existsb_exists in Hex. destruct Hex as (u & Hin & Heq).
  apply String.eqb_eq in Heq. exfalso. exact (Hfresh u Hin Heq).
Qed.

Section Users.

Context {platform : Platform}.

(** The store after an administrator's [POST /users] with a password and
    an email no user has. *)
Lemma createUser_inserts (st : Store) (admin : User.t) (req : Request)
    (e p : string) :
  Js.truthy_number (User.is_admin admin) = true ->
  Body.email (body req) = Some e ->
  Body.password (body req) = Some p ->
  (forall u, In u (users st) -> User.email u <> e) ->
  let rowid := Sql.next_rowid (seq_users st) (map User.id (users st)) in
  createUser admin req st =
  (Response 200 (Text "User created successfully"),
   mkStore
     (users st
      ++ [User.mk rowid e (bcrypt_hashSync p 10) (Z.b2z (requested_role req))])
     (books st) (borrow_requests st) rowid (seq_borrow_requests st)).
Proof.
  intros Hadmin He Hp Hfresh rowid. unfold createUser, Sql.insert_user.
  rewrite Hadmin, He, Hp. simpl.
  rewrite (existsb_email_fresh _ _ Hfresh). reflexivity.
Qed.

(** The gate on a store whose last user is the one the header names. *)
Lemma gate_finds_last_user (st : Store) (created : User.t) (login : Request)
    (h p : string) (rest : list User.t) :
  users st = (rest ++ [created])%list ->
  (forall u, In u rest -> User.email u <> User.email created) ->
  authorization login = Some h ->
  credentials h = Some (Some (User.email created), Some p) ->
  bcrypt_compareSync p (User.password created) = true ->
  authenticateUser st login = Next created.
Proof.
  intros Husers Hfresh Hh Hcred Hcmp. unfold authenticateUser.
  rewrite Hh, (credentials_truthy _ _ Hcred), Hcred. simpl.
  rewrite Husers, find_after_misses.
  - simpl. rewrite String.eqb_refl, Hcmp. reflexivity.
  - intros u Hu. apply String.eqb_neq. exact (Hfresh u Hu).
Qed.

(** Round trip, for an email and a password that hold no colon: the
    user an administrator creates is appended under a new rowid with the
    hash of the password, nothing else is written, and the gate then
    resolves the header [scheme token], whose token decodes to
    [email:password], to that row (provided [bcrypt] accepts a password
    against its own hash).  With a colon in the password the round trip
    fails: see the last section. *)
Theorem created_user_can_log_in (st : Store) (admin : User.t)
    (req login : Request) (e p scheme token : string) :
  Js.truthy_number (User.is_admin admin) = true ->
  Body.email (body req) = Some e ->
  Body.password (body req) = Some p ->
  (forall u, In u (users st) -> User.email u <> e) ->
  bcrypt_compareSync p (bcrypt_hashSync p 10) = true ->
  occurs ":" e = false ->
  occurs ":" p = false ->
  occurs " " scheme = false ->
  occurs " " token = false ->
  base64_toString token = e ++ ":" ++ p ->
  authorization login = Some (scheme ++ " " ++ token) ->
  exists (st' : Store) (created : User.t),
    createUser admin req st =
    (Response 200 (Text "User created successfully"), st')
    /\ users st' = (users st ++ [created])%list
    /\ User.email created = e
    /\ User.password created = bcrypt_hashSync p 10
    /\ ~ In (User.id created) (map User.id (users st))
    /\ books st' = books st
    /\ borrow_requests st' = borrow_requests st
    /\ authenticateUser st' login = Next created.
Proof.
  intros Hadmin He Hp Hfresh Hcmp Hecolon Hpcolon Hscheme Htoken Hdecoded Hh.
  assert (Hcred : credentials (scheme ++ " " ++ token)
                  = Some (Some e, Some p)).
  { unfold credentials.
    rewrite (header_token scheme token Hscheme Htoken), Hdecoded.
    simpl append. rewrite (split_at_separator ":" e p Hecolon).
    rewrite (split_without_separator ":" p Hpcolon). reflexivity. }
  pose proof (createUser_inserts st admin req e p Hadmin He Hp Hfresh) as Hrun.
  simpl in Hrun. eexists. eexists. split; [exact Hrun |]. simpl.
  repeat split.
  - apply next_rowid_fresh.
  - eapply gate_finds_last_user; simpl; eauto.
Qed.

(** An administrator's [POST /users] with a password is refused with 400
    and writes nothing when the email is missing or already taken. *)
Theorem createUser_refuses_missing_or_taken_email (st : Store)
    (admin : User.t) (req : Request) (p : string) :
  Js.truthy_number (User.is_admin admin) = true ->
  Body.password (body req) = Some p ->
  Body.email (body req) = None
  \/ (exists u, In u (users st)
                /\ Body.email (body req) = Some (User.email u)) ->
  createUser admin req st = (Response 400 (Text "Error creating user"), st).
Proof.
  intros Hadmin Hp Hemail. unfold createUser, Sql.insert_user.
  rewrite Hadmin, Hp. simpl.
  destruct Hemail as [-> | (u & Hin & ->)]; [reflexivity |].
  assert (Hex : existsb (fun v => String.eqb (User.email v) (User.email u))
                  (users st) = true).
  { apply existsb_exists. exists u. split; [exact Hin |].
    apply String.eqb_refl. }
  rewrite Hex. reflexivity.
Qed.

(** The role of a created user is the [is_admin] of the body, ordinary by
    default: logged in, the new user is listed the requests if it was
    created with [is_admin: true], and is answered 403 otherwise, also on
    [POST /users] and [PUT /borrow-requests/:id]. *)
Theorem created_user_has_requested_role (st : Store) (admin : User.t)
    (req login : Request) (e p h : string) :
  Js.truthy_number (User.is_admin admin) = true ->
  Body.email (body req) = Some e ->
  Body.password (body req) = Some p ->
  (forall u, In u (users st) -> User.email u <> e) ->
  bcrypt_compareSync p (bcrypt_hashSync p 10) = true ->
  authorization login = Some h ->
  credentials h = Some (Some e, Some p) ->
  let st' := snd (createUser admin req st) in
  (requested_role req = true ->
   get_borrow_requests st' login =
   (Response 200 (RequestRows (borrow_requests st)), st'))
  /\ (requested_role req = false ->
      get_borrow_requests st' login = (Response 403 (Text "Access denied"), st')
      /\ post_users st' login = (Response 403 (Text "Access denied"), st')
      /\ put_borrow_requests_id st' login =
         (Response 403 (Text "Access denied"), st')).
Proof.
  intros Hadmin He Hp Hfresh Hcmp Hh Hcred st'. subst st'.
  rewrite (createUser_inserts st admin req e p Hadmin He Hp Hfresh).
  cbn [snd].
  match goal with |- context [get_borrow_requests ?s login] =>
    assert (Hgate : authenticateUser s login
                    = Next (User.mk
                              (Sql.next_rowid (seq_users st)
                                 (map User.id (users st)))
                              e (bcrypt_hashSync p 10)
                              (Z.b2z (requested_role req))))
      by (eapply gate_finds_last_user; simpl; eauto)
  end.
  unfold get_borrow_requests, post_users, put_borrow_requests_id.
  rewrite !(route_next _ _ _ _ Hgate).
  unfold listRequests, createUser, updateRequestStatus. simpl.
  split; intros ->; simpl; repeat split.
Qed.

End Users.

(** ** What a request can do to the store *)

Lemma createUser_effect {platform : Platform} (st : Store) (user : User.t)
    (req : Request) :
  snd (createUser user req st) = st
  \/ exists e hashed flag,
       (forall u, In u (users st) -> User.email u <> e)
       /\ Js.truthy_number (User.is_admin user) = true
       /\ snd (createUser user req st) =
          mkStore
            (users st
             ++ [User.mk (Sql.next_rowid (seq_users st)
                            (map User.id (users st))) e hashed flag])
            (books st) (borrow_requests st)
            (Sql.next_rowid (seq_users st) (map User.id (users st)))
            (seq_borrow_requests st).
Proof.
  unfold createUser.
  destruct (Js.truthy_number (User.is_admin user)) eqn:Hadmin; simpl;
    [| left; reflexivity].
  destruct (hashSync _ _) as [hashed |]; [| left; reflexivity].
  unfold Sql.insert_user.
  destruct (Body.email (body req)) as [e |]; [| left; reflexivity].
  destruct (existsb _ _) eqn:Hex; [left; reflexivity |].
  right. exists e, hashed. eexists. repeat split.
  intros u Hin Heq.
  assert (Htrue : existsb (fun v => String.eqb (User.email v) e) (users st)
                  = true).
  { apply existsb_exists. exists u. split; [exact Hin |].
    apply String.eqb_eq. exact Heq. }
  congruence.
Qed.

Lemma submitRequest_effect (st : Store) (user : User.t) (req : Request) :
  snd (submitRequest user req st) = st
  \/ exists b s e,
       snd (submitRequest user req st) =
       mkStore (users st) (books st)
         (borrow_requests st
          ++ [BorrowRequest.mk
                (Sql.next_rowid (seq_borrow_requests st)
                   (map BorrowRequest.id (borrow_requests st)))
                b (User.id user) s e "Pending"])
         (seq_users st)
         (Sql.next_rowid (seq_borrow_requests st)
            (map BorrowRequest.id (borrow_requests st))).
Proof.
  unfold submitRequest.
  destruct (Sql.get_conflict _ _ _ _); [left; reflexivity |].
  unfold Sql.insert_borrow_request.
  destruct (Body.book_id (body req)) as [b |]; [| left; reflexivity].
  destruct (Body.start_date (body req)) as [s |]; [| left; reflexivity].
  destruct (Body.end_date (body req)) as [e |]; [| left; reflexivity].
  right. exists b, s, e. reflexivity.
Qed.

Lemma updateRequestStatus_effect (st : Store) (user : User.t)
    (req : Request) :
  snd (updateRequestStatus user req st) = st
  \/ exists s,
       Js.truthy_number (User.is_admin user) = true
       /\ snd (updateRequestStatus user req st) =
          mkStore (users st) (books st)
            (map (fun r => if Z.eqb (BorrowRequest.id r) (params_id req)
                           then BorrowRequest.with_status s r else r)
                 (borrow_requests st))
            (seq_users st) (seq_borrow_requests st).
Proof.
  unfold updateRequestStatus.
  destruct (Js.truthy_number (User.is_admin user)) eqn:Hadmin; simpl;
    [| left; reflexivity].
  unfold Sql.update_status.
  destruct (existsb _ _); [| left; reflexivity].
  destruct (Body.status (body req)) as [s |]; [| left; reflexivity].
  destruct (Sql.status_allowed (Some s)); [| left; reflexivity].
  right. exists s. split; reflexivity.
Qed.

(** The three kinds of write, and who can cause them. *)
Lemma app_effect {platform : Platform} (endpoint : Endpoint) (st : Store)
    (req : Request) :
  snd (app endpoint st req) = st
  \/ (exists admin e hashed flag,
        authenticateUser st req = Next admin
        /\ Js.truthy_number (User.is_admin admin) = true
        /\ (forall u, In u (users st) -> User.email u <> e)
        /\ snd (app endpoint st req) =
           mkStore
             (users st
              ++ [User.mk (Sql.next_rowid (seq_users st)
                             (map User.id (users st))) e hashed flag])
             (books st) (borrow_requests st)
             (Sql.next_rowid (seq_users st) (map User.id (users st)))
             (seq_borrow_requests st))
  \/ (exists user b s e,
        authenticateUser st req = Next user
        /\ endpoint = POST_borrow_requests
        /\ snd (app endpoint st req) =
           mkStore (users st) (books st)
             (borrow_requests st
              ++ [BorrowRequest.mk
                    (Sql.next_rowid (seq_borrow_requests st)
                       (map BorrowRequest.id (borrow_requests st)))
                    b (User.id user) s e "Pending"])
             (seq_users st)
             (Sql.next_rowid (seq_borrow_requests st)
                (map BorrowRequest.id (borrow_requests st))))
  \/ (exists admin s,
        authenticateUser st req = Next admin
        /\ Js.truthy_number (User.is_admin admin) = true
        /\ snd (app endpoint st req) =
           mkStore (users st) (books st)
             (map (fun r => if Z.eqb (BorrowRequest.id r) (params_id req)
                            then BorrowRequest.with_status s r else r)
                  (borrow_requests st))
             (seq_users st) (seq_borrow_requests st)).
Proof.
  destruct endpoint; unfold app, post_users, get_borrow_requests,
    put_borrow_requests_id, get_books, post_borrow_requests, route;
    destruct (authenticateUser st req) as [user | o] eqn:Hgate;
    try (left; reflexivity).
  - destruct (createUser_effect st user req)
      as [Hsame | (e & hashed & flag & Hfresh & Hadmin & Hst)];
      [left; exact Hsame |].
    right. left. exists user, e, hashed, flag. auto.
  - left. unfold listRequests. destruct (negb _); reflexivity.
  - destruct (updateRequestStatus_effect st user req)
      as [Hsame | (s & Hadmin & Hst)]; [left; exact Hsame |].
    right. right. right. exists user, s. auto.
  - destruct (submitRequest_effect st user req)
      as [Hsame | (b & s & e & Hst)]; [left; exact Hsame |].
    right. right. left. exists user, b, s, e. auto.
Qed.

Lemma snoc_rowid (seq : Z) (ids : list Z) :
  StronglySorted Z.lt ids ->
  (forall x, In x ids -> x <= seq) ->
  StronglySorted Z.lt (ids ++ [Sql.next_rowid seq ids])
  /\ forall x, In x (ids ++ [Sql.next_rowid seq ids]) ->
               x <= Sql.next_rowid seq ids.
Proof.
  intros Hsorted Hle. split.
  - apply sorted_snoc; [exact Hsorted |].
    intros x Hx. apply (fold_max_ge_in seq) in Hx.
    unfold Sql.next_rowid. lia.
  - intros x Hx. apply in_app_or in Hx. destruct Hx as [Hx | [<- | []]].
    + apply (fold_max_ge_in seq) in Hx. unfold Sql.next_rowid. lia.
    + lia.
Qed.

Section Application.

Context {platform : Platform}.

Lemma gate_without_users (st : Store) (req : Request) :
  users st = [] ->
  exists o, authenticateUser st req = Stop o /\ turned_away o.
Proof.
  intros Hnone. unfold authenticateUser, turned_away.
  destruct (authorization req) as [h |]; [| eauto].
  destruct (negb (Js.truthy_string h)); [eauto |].
  destruct (credentials h) as [[email password] |]; [| eauto 6].
  unfold Sql.get_user_by_email. rewrite Hnone.
  destruct email; simpl; eauto 6.
Qed.

(** On a database without users nobody passes the gate, and the only
    route that creates users is behind it: every request to every route
    is turned away with 401 (or throws on a header without a space), the
    store stays as it is, and no sequence of requests ever changes it. *)
Theorem no_user_no_service (st : Store) :
  users st = [] ->
  (forall endpoint req,
      snd (app endpoint st req) = st
      /\ turned_away (fst (app endpoint st req)))
  /\ (forall st', serves st st' -> st' = st).
Proof.
  intros Hnone.
  assert (Hstep : forall endpoint req,
             snd (app endpoint st req) = st
             /\ turned_away (fst (app endpoint st req))).
  { intros endpoint req.
    destruct (gate_without_users st req Hnone) as (o & Hgate & Ho).
    destruct endpoint; unfold app, post_users, get_borrow_requests,
      put_borrow_requests_id, get_books, post_borrow_requests, route;
      rewrite Hgate; split; (reflexivity || exact Ho). }
  split; [exact Hstep |].
  intros st' Hserves. induction Hserves as [| st' endpoint req _ IH].
  - reflexivity.
  - rewrite IH. apply Hstep.
Qed.

(** A request that the gate does not resolve to an administrator cannot
    touch the users, the books or any existing request: all it can do is
    append one Pending request owned by the user the gate resolved, through
    [POST /borrow-requests]. *)
Theorem only_administrators_change_rows (endpoint : Endpoint) (st : Store)
    (req : Request) :
  (forall user, authenticateUser st req = Next user ->
                Js.truthy_number (User.is_admin user) = false) ->
  users (snd (app endpoint st req)) = users st
  /\ books (snd (app endpoint st req)) = books st
  /\ (borrow_requests (snd (app endpoint st req)) = borrow_requests st
      \/ exists user row,
           authenticateUser st req = Next user
           /\ endpoint = POST_borrow_requests
           /\ borrow_requests (snd (app endpoint st req)) =
              (borrow_requests st ++ [row])%list
           /\ BorrowRequest.status row = "Pending"
           /\ BorrowRequest.user_id row = User.id user).
Proof.
  intros Hordinary.
  destruct (app_effect endpoint st req)
    as [-> | [(admin & e & hashed & flag & Hgate & Hadmin & _)
           | [(user & b & s & e & Hgate & Hep & ->)
             | (admin & s & Hgate & Hadmin & _)]]].
  - auto.
  - rewrite (Hordinary admin Hgate) in Hadmin. discriminate.
  - simpl. repeat split. right.
    exists user, (BorrowRequest.mk
                    (Sql.next_rowid (seq_borrow_requests st)
                       (map BorrowRequest.id (borrow_requests st)))
                    b (User.id user) s e "Pending").
    simpl. auto.
  - rewrite (Hordinary admin Hgate) in Hadmin. discriminate.
Qed.

Lemma app_keeps_store_ok (endpoint : Endpoint) (st : Store) (req : Request) :
  store_ok st -> store_ok (snd (app endpoint st req)).
Proof.
  intros (Hemails & [Husorted Hule] & [Hrsorted Hrle]).
  destruct (app_effect endpoint st req)
    as [-> | [(admin & e & hashed & flag & _ & _ & Hfresh & ->)
           | [(user & b & s & e & _ & _ & ->)
             | (admin & s & _ & _ & ->)]]];
    unfold store_ok, emails_unique, users_rowids_ok, rowids_ok; simpl.
  - auto.
  - rewrite !map_app. simpl. split; [| split].
    + apply NoDup_app; [exact Hemails | repeat constructor; simpl; tauto |].
      intros x Hx [<- | []]. apply in_map_iff in Hx.
      destruct Hx as (u & Heq & Hin). exact (Hfresh u Hin Heq).
    + apply snoc_rowid; assumption.
    + auto.
  - rewrite !map_app. simpl. split; [exact Hemails | split; [auto |]].
    apply snoc_rowid; assumption.
  - rewrite map_id_with_status. auto.
Qed.

(** The constraints of the schema are kept by every request: if emails
    are unique and the two tables are in rowid order within their
    sequences when the server starts, they are after any sequence of
    requests; in particular ids and emails never repeat. *)
Theorem serves_keeps_store_ok (st st' : Store) :
  store_ok st ->
  serves st st' ->
  store_ok st'
  /\ NoDup (map User.id (users st'))
  /\ NoDup (map User.email (users st'))
  /\ NoDup (map BorrowRequest.id (borrow_requests st')).
Proof.
  intros Hok Hserves.
  assert (Hok' : store_ok st').
  { induction Hserves as [| st' endpoint req _ IH]; [exact Hok |].
    apply app_keeps_store_ok. exact IH. }
  split; [exact Hok' |].
  destruct Hok' as (Hemails & [Husorted _] & [Hrsorted _]).
  repeat split; [apply sorted_distinct | exact Hemails | apply sorted_distinct];
    assumption.
Qed.

(** No route writes the [books] table: whatever requests are served, it
    is the table the server started with, and [GET /books] sends all of it
    to every user the gate resolves, administrator or not, without writing
    anything. *)
Theorem books_are_never_written (st st' : Store) :
  serves st st' ->
  books st' = books st
  /\ forall req user,
       authenticateUser st' req = Next user ->
       get_books st' req = (Response 200 (BookRows (books st)), st').
Proof.
  intros Hserves.
  assert (Hbooks : books st' = books st).
  { induction Hserves as [| st' endpoint req _ IH]; [reflexivity |].
    rewrite <- IH.
    destruct (app_effect endpoint st' req)
      as [-> | [(admin & e & hashed & flag & _ & _ & _ & ->)
             | [(user & b & s & e & _ & _ & ->)
               | (admin & s & _ & _ & ->)]]]; reflexivity. }
  split; [exact Hbooks |].
  intros req user Hgate. unfold get_books.
  rewrite (route_next _ _ _ _ Hgate). unfold listBooks, Sql.all_books, send.
  rewrite Hbooks. reflexivity.
Qed.

Lemma app_keeps_requests (endpoint : Endpoint) (st : Store) (req : Request)
    (i : nat) (r : BorrowRequest.t) :
  row_at st i = Some r ->
  exists r', row_at (snd (app endpoint st req)) i = Some r'
             /\ same_request r r'.
Proof.
  intros Hr. unfold row_at in *.
  destruct (app_effect endpoint st req)
    as [-> | [(admin & e & hashed & flag & _ & _ & _ & ->)
           | [(user & b & s & e & _ & _ & ->)
             | (admin & s & _ & _ & ->)]]]; simpl.
  - exists r. unfold same_request. repeat split. exact Hr.
  - exists r. unfold same_request. repeat split. exact Hr.
  - exists r. split; [| unfold same_request; repeat split].
    rewrite nth_error_app1; [exact Hr |].
    apply (proj1 (nth_error_Some (borrow_requests st) i)).
    rewrite Hr. discriminate.
  - rewrite nth_error_map, Hr. simpl. eexists. split; [reflexivity |].
    destruct (Z.eqb _ _); unfold same_request; simpl; repeat split.
Qed.

(** A request, once stored, stays at its place in the table with its id,
    book, owner and dates, whatever requests are served afterwards: no
    route deletes, moves, reassigns or re-dates a row. *)
Theorem requests_keep_their_columns (st st' : Store) (i : nat)
    (r : BorrowRequest.t) :
  serves st st' ->
  row_at st i = Some r ->
  exists r', row_at st' i = Some r' /\ same_request r r'.
Proof.
  intros Hserves Hr. induction Hserves as [| st' endpoint req _ IH].
  - exists r. unfold same_request. repeat split. exact Hr.
  - destruct IH as (r1 & Hr1 & Hsame1).
    destruct (app_keeps_requests endpoint st' req i r1 Hr1)
      as (r2 & Hr2 & Hsame2).
    exists r2. split; [exact Hr2 |].
    unfold same_request in *.
    destruct Hsame1 as (? & ? & ? & ? & ?), Hsame2 as (? & ? & ? & ? & ?).
    repeat split; congruence.
Qed.

End Application.

(** ** More on the borrow workflow *)

Lemma submitRequest_conflict (st : Store) (user : User.t) (req : Request)
    (c : BorrowRequest.t) :
  Sql.get_conflict st (Body.book_id (body req)) (Body.start_date (body req))
    (Body.end_date (body req)) = Some c ->
  submitRequest user req st =
  (Response 400 (Text "Book already borrowed during the selected period"), st).
Proof. intros Hc. unfold submitRequest. rewrite Hc. reflexivity. Qed.

Lemma conflicts_needs_approved (book_id : option Z)
    (start_date end_date : option string) (r : BorrowRequest.t) :
  BorrowRequest.status r <> "Approved" ->
  Sql.conflicts book_id start_date end_date r = false.
Proof.
  intros Hstatus. unfold Sql.conflicts.
  apply String.eqb_neq in Hstatus. rewrite Hstatus.
  rewrite andb_false_r. reflexivity.
Qed.

Lemma updateRequestStatus_allowed (st : Store) (admin : User.t)
    (req : Request) (s : string) :
  Js.truthy_number (User.is_admin admin) = true ->
  Body.status (body req) = Some s ->
  Sql.status_allowed (Some s) = true ->
  updateRequestStatus admin req st =
  (Response 200 (Text "Request updated"),
   mkStore (users st) (books st)
     (map (fun r => if Z.eqb (BorrowRequest.id r) (params_id req)
                    then BorrowRequest.with_status s r else r)
          (borrow_requests st))
     (seq_users st) (seq_borrow_requests st)).
Proof.
  intros Hadmin Hs Hok. unfold updateRequestStatus.
  rewrite Hadmin, Hs. simpl.
  rewrite (update_status_allowed st s (params_id req) Hok). reflexivity.
Qed.


(** Only Approved rows of the same book can block a request: when the
    book has none, a request with its three fields is accepted whatever
    its dates and whatever Pending or Denied rows exist. *)
Theorem pending_and_denied_rows_never_block (st : Store) (user : User.t)
    (req : Request) (b : Z) (s e : string) :
  Body.book_id (body req) = Some b ->
  Body.start_date (body req) = Some s ->
  Body.end_date (body req) = Some e ->
  (forall r, In r (borrow_requests st) -> BorrowRequest.book_id r = b ->
             BorrowRequest.status r <> "Approved") ->
  fst (submitRequest user req st) = Response 200 (Text "Request submitted").
Proof.
  intros Hb Hs He Hnone.
  rewrite (submitRequest_inserts st user req b s e Hb Hs He); [reflexivity |].
  apply get_conflict_none. intros r Hr.
  destruct (Sql.conflicts (Some b) (Some s) (Some e) r) eqn:Hc;
    [| reflexivity].
  apply conflicts_iff in Hc. destruct Hc as (Hbook & Happ & _).
  exfalso. exact (Hnone r Hr Hbook Happ).
Qed.

(** The answer to a submission does not depend on the submissions before
    it: a new row is Pending and the conflict query reads Approved rows
    only, so the same request can be submitted again and again. *)
Theorem submissions_do_not_interfere (st : Store) (user1 user2 : User.t)
    (req1 req2 : Request) :
  fst (submitRequest user2 req2 (snd (submitRequest user1 req1 st)))
  = fst (submitRequest user2 req2 st).
Proof.
  destruct (submitRequest_effect st user1 req1) as [-> | (b & s & e & ->)];
    [reflexivity |].
  unfold submitRequest, Sql.get_conflict. simpl.
  rewrite find_before_miss
    by (apply conflicts_needs_approved; simpl; discriminate).
  destruct (find _ (borrow_requests st)); [reflexivity |].
  unfold Sql.insert_borrow_request.
  destruct (Body.book_id (body req2)), (Body.start_date (body req2)),
    (Body.end_date (body req2)); reflexivity.
Qed.

Lemma with_status_twice (rows : list BorrowRequest.t) (id : Z)
    (s1 s2 : string) :
  map (fun r => if Z.eqb (BorrowRequest.id r) id
                then BorrowRequest.with_status s2 r else r)
    (map (fun r => if Z.eqb (BorrowRequest.id r) id
                   then BorrowRequest.with_status s1 r else r) rows)
  = map (fun r => if Z.eqb (BorrowRequest.id r) id
                  then BorrowRequest.with_status s2 r else r) rows.
Proof.
  rewrite map_map. apply map_ext. intros r.
  destruct (Z.eqb (BorrowRequest.id r) id) eqn:Hid; simpl; rewrite Hid;
    reflexivity.
Qed.

Lemma with_status_swap (rows : list BorrowRequest.t) (id1 id2 : Z)
    (s1 s2 : string) :
  id1 <> id2 ->
  map (fun r => if Z.eqb (BorrowRequest.id r) id2
                then BorrowRequest.with_status s2 r else r)
    (map (fun r => if Z.eqb (BorrowRequest.id r) id1
                   then BorrowRequest.with_status s1 r else r) rows)
  = map (fun r => if Z.eqb (BorrowRequest.id r) id1
                  then BorrowRequest.with_status s1 r else r)
      (map (fun r => if Z.eqb (BorrowRequest.id r) id2
                     then BorrowRequest.with_status s2 r else r) rows).
Proof.
  intros Hne. rewrite !map_map. apply map_ext. intros r.
  destruct (Z.eqb (BorrowRequest.id r) id1) eqn:H1;
    destruct (Z.eqb (BorrowRequest.id r) id2) eqn:H2;
    simpl; rewrite ?H1, ?H2; try reflexivity.
  apply Z.eqb_eq in H1. apply Z.eqb_eq in H2. exfalso. congruence.
Qed.

(** The last decision on a request wins: an administrator's update to an
    allowed status leaves the same store whether or not another update of
    the same id, by anyone and to anything, was served just before.  No
    transition between statuses is forbidden, and repeating an update
    changes nothing more. *)
Theorem last_update_wins (st : Store) (user1 admin : User.t)
    (req1 req2 : Request) (s : string) :
  Js.truthy_number (User.is_admin admin) = true ->
  params_id req1 = params_id req2 ->
  Body.status (body req2) = Some s ->
  s = "Pending" \/ s = "Approved" \/ s = "Denied" ->
  updateRequestStatus admin req2 (snd (updateRequestStatus user1 req1 st))
  = updateRequestStatus admin req2 st.
Proof.
  intros Hadmin Hid Hs Hok. apply status_allowed_iff in Hok.
  rewrite !(updateRequestStatus_allowed _ admin req2 s Hadmin Hs Hok).
  destruct (updateRequestStatus_effect st user1 req1)
    as [-> | (s1 & _ & ->)]; [reflexivity |].
  simpl. rewrite Hid, with_status_twice. reflexivity.
Qed.

(** Decisions on different requests do not depend on their order. *)
Theorem updates_of_different_requests_commute (st : Store)
    (admin1 admin2 : User.t) (req1 req2 : Request) (s1 s2 : string) :
  Js.truthy_number (User.is_admin admin1) = true ->
  Js.truthy_number (User.is_admin admin2) = true ->
  Body.status (body req1) = Some s1 ->
  Body.status (body req2) = Some s2 ->
  Sql.status_allowed (Some s1) = true ->
  Sql.status_allowed (Some s2) = true ->
  params_id req1 <> params_id req2 ->
  snd (updateRequestStatus admin2 req2
         (snd (updateRequestStatus admin1 req1 st)))
  = snd (updateRequestStatus admin1 req1
           (snd (updateRequestStatus admin2 req2 st))).
Proof.
  intros Hadmin1 Hadmin2 Hs1 Hs2 Hok1 Hok2 Hne.
  rewrite !(updateRequestStatus_allowed _ admin1 req1 s1 Hadmin1 Hs1 Hok1).
  rewrite !(updateRequestStatus_allowed _ admin2 req2 s2 Hadmin2 Hs2 Hok2).
  simpl. rewrite (with_status_swap _ _ _ s1 s2 Hne). reflexivity.
Qed.

(** Once an administrator has approved a request, every later request for
    the same book whose start or end date falls within its range is
    rejected with the conflict message, and adds no row. *)
Theorem approved_request_blocks_its_range (st : Store) (admin user : User.t)
    (decision req : Request) (r : BorrowRequest.t) (s e : string) :
  Js.truthy_number (User.is_admin admin) = true ->
  In r (borrow_requests st) ->
  BorrowRequest.id r = params_id decision ->
  Body.status (body decision) = Some "Approved" ->
  Body.book_id (body req) = Some (BorrowRequest.book_id r) ->
  Body.start_date (body req) = Some s ->
  Body.end_date (body req) = Some e ->
  falls_within s r \/ falls_within e r ->
  let st' := snd (updateRequestStatus admin decision st) in
  submitRequest user req st' =
  (Response 400 (Text "Book already borrowed during the selected period"),
   st').
Proof.
  intros Hadmin Hin Hid Hstatus Hb Hs He Hwithin st'. subst st'.
  rewrite (updateRequestStatus_allowed st admin decision "Approved"
             Hadmin Hstatus eq_refl).
  cbn [snd].
  destruct (get_conflict_found
              (mkStore (users st) (books st)
                 (map (fun r0 => if Z.eqb (BorrowRequest.id r0)
                                      (params_id decision)
                                 then BorrowRequest.with_status "Approved" r0
                                 else r0) (borrow_requests st))
                 (seq_users st) (seq_borrow_requests st))
              (Some (BorrowRequest.book_id r)) (Some s) (Some e)
              (BorrowRequest.with_status "Approved" r)) as [c Hc].
  - simpl. apply in_map_iff. exists r. split; [| exact Hin].
    rewrite (proj2 (Z.eqb_eq _ _) Hid). reflexivity.
  - apply conflicts_iff. repeat split. exact Hwithin.
  - apply (submitRequest_conflict _ user req c).
    rewrite Hb, Hs, He. exact Hc.
Qed.

(** Moving a request away from Approved frees its range: when every
    Approved row of the book that holds the start or the end date has the
    id of the decision, the request is accepted after the administrator
    has set that id to Denied or back to Pending. *)
Theorem unapproved_request_frees_its_range (st : Store)
    (admin user : User.t) (decision req : Request) (status : string)
    (b : Z) (s e : string) :
  Js.truthy_number (User.is_admin admin) = true ->
  Body.status (body decision) = Some status ->
  status = "Denied" \/ status = "Pending" ->
  Body.book_id (body req) = Some b ->
  Body.start_date (body req) = Some s ->
  Body.end_date (body req) = Some e ->
  (forall r, In r (borrow_requests st) ->
             BorrowRequest.book_id r = b -> approved r ->
             falls_within s r \/ falls_within e r ->
             BorrowRequest.id r = params_id decision) ->
  fst (submitRequest user req (snd (updateRequestStatus admin decision st)))
  = Response 200 (Text "Request submitted").
Proof.
  intros Hadmin Hstatus Hwhich Hb Hs He Honly.
  assert (Hok : Sql.status_allowed (Some status) = true)
    by (apply status_allowed_iff; tauto).
  assert (Hnot : status <> "Approved")
    by (destruct Hwhich as [-> | ->]; discriminate).
  rewrite (updateRequestStatus_allowed st admin decision status
             Hadmin Hstatus Hok).
  cbn [snd].
  rewrite (submitRequest_inserts _ user req b s e Hb Hs He); [reflexivity |].
  apply get_conflict_none. simpl. intros r' Hr'.
  apply in_map_iff in Hr'. destruct Hr' as (r & <- & Hr).
  destruct (Z.eqb_spec (BorrowRequest.id r) (params_id decision))
    as [Hid | Hid].
  - apply conflicts_needs_approved. exact Hnot.
  - destruct (Sql.conflicts (Some b) (Some s) (Some e) r) eqn:Hc;
      [| reflexivity].
    apply conflicts_iff in Hc. destruct Hc as (Hbook & Happ & Hwithin).
    exfalso. exact (Hid (Honly r Hr Hbook Happ Hwithin)).
Qed.

(** ** The further properties on the sample data *)

Lemma credentials_of_basic_header_witness :
  @credentials Reference.platform Sample.basic_admin
  = Some (Some "admin@lib.org", Some "secret").
Proof.
  apply (@credentials_of_basic_header Reference.platform "Basic"
           "YWRtaW5AbGliLm9yZzpzZWNyZXQ=" "admin@lib.org" "secret");
    reflexivity.
Defined.

Lemma secret_is_cut_at_colon_witness :
  @credentials Reference.platform Scenario.basic_reader_pa_ss
  = Some (Some "reader@lib.org", Some "pa")
  /\ @authenticateUser Reference.platform Sample.one_pending
       (Sample.bare Scenario.basic_reader_pa_ss)
     = @authenticateUser Reference.platform Sample.one_pending
         (Sample.bare Scenario.basic_reader_pa).
Proof.
  apply (@secret_is_cut_at_colon Reference.platform Sample.one_pending
           (Sample.bare Scenario.basic_reader_pa_ss)
           (Sample.bare Scenario.basic_reader_pa)
           "Basic" "cmVhZGVyQGxpYi5vcmc6cGE6c3M=" "cmVhZGVyQGxpYi5vcmc6cGE="
           "reader@lib.org" "pa" "ss"); reflexivity.
Defined.

(** Without a colon, the email of the administrator throws and an unknown
    one is answered 401. *)
Lemma gate_without_colon_witness :
  @authenticateUser Reference.platform Sample.one_pending
    (Sample.bare Scenario.basic_admin_bare)
  = Stop (Unhandled BcryptArgumentError)
  /\ @authenticateUser Reference.platform Sample.one_pending
       (Sample.bare Scenario.basic_ghost_bare)
     = Stop (Response 401 (Text "Invalid credentials")).
Proof.
  split.
  - destruct (@gate_without_colon Reference.platform Sample.one_pending
                (Sample.bare Scenario.basic_admin_bare)
                "Basic" "YWRtaW5AbGliLm9yZw==") as [Hknown _];
      [reflexivity | reflexivity | reflexivity | reflexivity |].
    apply Hknown. exists Sample.admin. split; [left |]; reflexivity.
  - destruct (@gate_without_colon Reference.platform Sample.one_pending
                (Sample.bare Scenario.basic_ghost_bare)
                "Basic" "Z2hvc3RAbGliLm9yZw==") as [_ Hunknown];
      [reflexivity | reflexivity | reflexivity | reflexivity |].
    apply Hunknown. intros user Hin. simpl in Hin.
    destruct Hin as [<- | [<- | []]]; discriminate.
Defined.

Lemma gate_admits_stored_users_only_witness :
  In Sample.admin (users Sample.one_pending).
Proof.
  apply (@gate_admits_stored_users_only Reference.platform Sample.one_pending
           (Sample.bare Sample.basic_admin) Sample.admin).
  reflexivity.
Defined.

Lemma sample_email_is_new (rows : list BorrowRequest.t) (u : User.t) :
  In u (users (Sample.library rows)) -> User.email u <> "new@lib.org".
Proof.
  simpl. intros [<- | [<- | []]]; discriminate.
Qed.

Lemma created_user_can_log_in_witness :
  exists (st' : Store) (created : User.t),
    @createUser Reference.platform Sample.admin
      (Scenario.signup Sample.basic_admin "new@lib.org" "hunter2" None)
      Sample.one_pending
    = (Response 200 (Text "User created successfully"), st')
    /\ users st' = [Sample.admin; Sample.reader; created]
    /\ User.email created = "new@lib.org"
    /\ @authenticateUser Reference.platform st'
         (Sample.bare Scenario.basic_new) = Next created.
Proof.
  destruct (@created_user_can_log_in Reference.platform Sample.one_pending
              Sample.admin
              (Scenario.signup Sample.basic_admin "new@lib.org" "hunter2" None)
              (Sample.bare Scenario.basic_new)
              "new@lib.org" "hunter2" "Basic" "bmV3QGxpYi5vcmc6aHVudGVyMg==")
    as (st' & created & Hrun & Husers & Hemail & _ & _ & _ & _ & Hgate);
    [reflexivity | reflexivity | reflexivity | apply sample_email_is_new
    | reflexivity | reflexivity | reflexivity | reflexivity | reflexivity
    | reflexivity | reflexivity |].
  exists st', created. auto.
Defined.

Lemma createUser_refuses_missing_or_taken_email_witness :
  @createUser Reference.platform Sample.admin
    (Scenario.signup Sample.basic_admin "reader@lib.org" "hunter2" None)
    Sample.one_pending
  = (Response 400 (Text "Error creating user"), Sample.one_pending).
Proof.
  apply (@createUser_refuses_missing_or_taken_email Reference.platform
           Sample.one_pending Sample.admin
           (Scenario.signup Sample.basic_admin "reader@lib.org" "hunter2" None)
           "hunter2").
  - reflexivity.
  - reflexivity.
  - right. exists Sample.reader. split; [right; left |]; reflexivity.
Defined.

(** Created without [is_admin], the new user is refused the listing. *)
Lemma created_user_has_requested_role_witness :
  let st' :=
    snd (@createUser Reference.platform Sample.admin
           (Scenario.signup Sample.basic_admin "new@lib.org" "hunter2" None)
           Sample.one_pending) in
  @get_borrow_requests Reference.platform st' (Sample.bare Scenario.basic_new)
  = (Response 403 (Text "Access denied"), st').
Proof.
  intros st'.
  destruct (@created_user_has_requested_role Reference.platform
              Sample.one_pending Sample.admin
              (Scenario.signup Sample.basic_admin "new@lib.org" "hunter2" None)
              (Sample.bare Scenario.basic_new)
              "new@lib.org" "hunter2" Scenario.basic_new)
    as [_ Hordinary];
    [reflexivity | reflexivity | reflexivity | apply sample_email_is_new
    | reflexivity | reflexivity | reflexivity |].
  destruct (Hordinary eq_refl) as [Hget _]. exact Hget.
Defined.

(** Nobody can create the first administrator through the API. *)
Lemma no_user_no_service_witness :
  let req :=
    Scenario.signup Sample.basic_admin "admin@lib.org" "secret" (Some true) in
  snd (@app Reference.platform POST_users empty_store req) = empty_store
  /\ turned_away (fst (@app Reference.platform POST_users empty_store req)).
Proof.
  intros req.
  destruct (@no_user_no_service Reference.platform empty_store eq_refl)
    as [Hstep _].
  exact (Hstep POST_users req).
Defined.

Lemma only_administrators_change_rows_witness :
  let req := Sample.borrow Sample.basic_reader 1 "2024-01-05" "2024-01-08" in
  users (snd (@app Reference.platform POST_borrow_requests
                Sample.one_approved req))
  = users Sample.one_approved.
Proof.
  intros req.
  apply (@only_administrators_change_rows Reference.platform
           POST_borrow_requests Sample.one_approved req).
  intros user Hgate. injection Hgate as <-. reflexivity.
Defined.

Lemma sample_store_ok (rows : list BorrowRequest.t) :
  rowids_ok (Sample.library rows) -> store_ok (Sample.library rows).
Proof.
  intros Hrows. split; [apply sample_emails_unique | split; [| exact Hrows]].
  split; simpl.
  - repeat constructor.
  - intros x [<- | [<- | []]]; lia.
Qed.

Lemma one_pending_ok : store_ok Sample.one_pending.
Proof.
  apply sample_store_ok. split; simpl.
  - repeat constructor.
  - intros x [<- | []]. lia.
Qed.

Lemma serves_keeps_store_ok_witness :
  store_ok
    (snd (@app Reference.platform POST_borrow_requests Sample.one_pending
            (Sample.borrow Sample.basic_reader 1 "2024-02-01" "2024-02-03"))).
Proof.
  apply (@serves_keeps_store_ok Reference.platform Sample.one_pending).
  - exact one_pending_ok.
  - apply serves_request. apply serves_none.
Defined.

Lemma books_are_never_written_witness :
  books
    (snd (@app Reference.platform POST_users Sample.one_pending
            (Scenario.signup Sample.basic_admin "new@lib.org" "hunter2" None)))
  = [Sample.dune].
Proof.
  apply (@books_are_never_written Reference.platform Sample.one_pending).
  apply serves_request. apply serves_none.
Defined.

Lemma requests_keep_their_columns_witness :
  exists r',
    row_at
      (snd (@app Reference.platform PUT_borrow_requests_id Sample.one_pending
              (Sample.decide Sample.basic_admin 1 "Approved"))) 0 = Some r'
    /\ same_request (Sample.row 1 "2024-01-10" "2024-01-20" "Pending") r'.
Proof.
  apply (@requests_keep_their_columns Reference.platform Sample.one_pending).
  - apply serves_request. apply serves_none.
  - reflexivity.
Defined.


Lemma pending_and_denied_rows_never_block_witness :
  fst (submitRequest Sample.reader
         (Sample.borrow Sample.basic_reader 1 "2024-01-15" "2024-01-16")
         Scenario.nothing_approved_for_book_1)
  = Response 200 (Text "Request submitted").
Proof.
  apply (pending_and_denied_rows_never_block
           Scenario.nothing_approved_for_book_1 Sample.reader
           (Sample.borrow Sample.basic_reader 1 "2024-01-15" "2024-01-16")
           1 "2024-01-15" "2024-01-16").
  - reflexivity.
  - reflexivity.
  - reflexivity.
  - intros r Hr Hbook. simpl in Hr.
    destruct Hr as [<- | [<- | [<- | []]]]; simpl in *;
      discriminate.
Defined.

(** Approved, then denied: the store is the one of denying at once. *)
Lemma last_update_wins_witness :
  updateRequestStatus Sample.admin
    (Sample.decide Sample.basic_admin 1 "Denied")
    (snd (updateRequestStatus Sample.admin
            (Sample.decide Sample.basic_admin 1 "Approved")
            Sample.one_pending))
  = updateRequestStatus Sample.admin
      (Sample.decide Sample.basic_admin 1 "Denied") Sample.one_pending.
Proof.
  apply (last_update_wins Sample.one_pending Sample.admin Sample.admin
           (Sample.decide Sample.basic_admin 1 "Approved")
           (Sample.decide Sample.basic_admin 1 "Denied") "Denied").
  - reflexivity.
  - reflexivity.
  - reflexivity.
  - right. right. reflexivity.
Defined.

Lemma updates_of_different_requests_commute_witness :
  snd (updateRequestStatus Sample.admin
         (Sample.decide Sample.basic_admin 2 "Pending")
         (snd (updateRequestStatus Sample.admin
                 (Sample.decide Sample.basic_admin 1 "Denied")
                 Sample.two_approved)))
  = snd (updateRequestStatus Sample.admin
           (Sample.decide Sample.basic_admin 1 "Denied")
           (snd (updateRequestStatus Sample.admin
                   (Sample.decide Sample.basic_admin 2 "Pending")
                   Sample.two_approved))).
Proof.
  apply (updates_of_different_requests_commute Sample.two_approved
           Sample.admin Sample.admin
           (Sample.decide Sample.basic_admin 1 "Denied")
           (Sample.decide Sample.basic_admin 2 "Pending")
           "Denied" "Pending").
  - reflexivity.
  - reflexivity.
  - reflexivity.
  - reflexivity.
  - reflexivity.
  - reflexivity.
  - simpl. lia.
Defined.

Lemma approved_request_blocks_its_range_witness :
  let st' :=
    snd (updateRequestStatus Sample.admin
           (Sample.decide Sample.basic_admin 1 "Approved") Sample.one_pending) in
  submitRequest Sample.reader
    (Sample.borrow Sample.basic_reader 1 "2024-01-15" "2024-01-25") st'
  = (Response 400 (Text "Book already borrowed during the selected period"),
     st').
Proof.
  apply (approved_request_blocks_its_range Sample.one_pending
           Sample.admin Sample.reader
           (Sample.decide Sample.basic_admin 1 "Approved")
           (Sample.borrow Sample.basic_reader 1 "2024-01-15" "2024-01-25")
           (Sample.row 1 "2024-01-10" "2024-01-20" "Pending")
           "2024-01-15" "2024-01-25").
  - reflexivity.
  - left. reflexivity.
  - reflexivity.
  - reflexivity.
  - reflexivity.
  - reflexivity.
  - reflexivity.
  - left. split; reflexivity.
Defined.

Lemma unapproved_request_frees_its_range_witness :
  fst (submitRequest Sample.reader
         (Sample.borrow Sample.basic_reader 1 "2024-01-15" "2024-01-25")
         (snd (updateRequestStatus Sample.admin
                 (Sample.decide Sample.basic_admin 1 "Denied")
                 Sample.one_approved)))
  = Response 200 (Text "Request submitted").
Proof.
  apply (unapproved_request_frees_its_range Sample.one_approved
           Sample.admin Sample.reader
           (Sample.decide Sample.basic_admin 1 "Denied")
           (Sample.borrow Sample.basic_reader 1 "2024-01-15" "2024-01-25")
           "Denied" 1 "2024-01-15" "2024-01-25").
  - reflexivity.
  - reflexivity.
  - left. reflexivity.
  - reflexivity.
  - reflexivity.
  - reflexivity.
  - intros r Hr _ _ _. simpl in Hr. destruct Hr as [<- | []]. reflexivity.
Defined.

(** ** Requests the gate stops, and logins that last *)

Lemma find_in_prefix {A : Type} (f : A -> bool) (l more : list A) (x : A) :
  find f l = Some x -> find f (l ++ more) = Some x.
Proof.
  induction l as [| y l IH]; simpl; [discriminate |].
  destruct (f y); [auto | exact IH].
Qed.

Section Lasting.

Context {platform : Platform}.

(** Without an [Authorization] header, or with an empty one, every route
    answers 401 "Authorization header missing"; with a header that holds
    no space, every route throws in [Buffer.from] and sends nothing.  In
    both cases the store is not touched, whatever the users and the body
    are. *)
Theorem header_is_required_on_every_route (endpoint : Endpoint)
    (st : Store) (req : Request) :
  (authorization req = None \/ authorization req = Some "" ->
   app endpoint st req =
   (Response 401 (Text "Authorization header missing"), st))
  /\ (forall h, authorization req = Some h -> h <> "" ->
                occurs " " h = false ->
                app endpoint st req = (Unhandled BufferTypeError, st)).
Proof.
  split.
  - intros Hmissing.
    assert (Hgate : authenticateUser st req
                    = Stop (Response 401 (Text "Authorization header missing")))
      by (unfold authenticateUser;
          destruct Hmissing as [-> | ->]; reflexivity).
    destruct endpoint; unfold app, post_users, get_borrow_requests,
      put_borrow_requests_id, get_books, post_borrow_requests, route;
      rewrite Hgate; reflexivity.
  - intros h Hh Hnonempty Hspace.
    assert (Hgate : authenticateUser st req = Stop (Unhandled BufferTypeError)).
    { unfold authenticateUser, credentials. rewrite Hh.
      rewrite (split_without_separator " " h Hspace).
      destruct h; [contradiction | reflexivity]. }
    destruct endpoint; unfold app, post_users, get_borrow_requests,
      put_borrow_requests_id, get_books, post_borrow_requests, route;
      rewrite Hgate; reflexivity.
Qed.

Lemma app_extends_users (endpoint : Endpoint) (st : Store) (req : Request) :
  exists added, users (snd (app endpoint st req)) = (users st ++ added)%list.
Proof.
  destruct (app_effect endpoint st req)
    as [-> | [(admin & e & hashed & flag & _ & _ & _ & ->)
           | [(user & b & s & e & _ & _ & ->)
             | (admin & s & _ & _ & ->)]]]; simpl;
    try (exists []; rewrite app_nil_r; reflexivity).
  eexists. reflexivity.
Qed.

(** No route deletes a user or changes a password or a role: the users
    table only grows at its end, and a header that the gate resolves to a
    user is resolved to the same row after any requests have been
    served. *)
Theorem logins_keep_working (st st' : Store) (req : Request)
    (user : User.t) :
  serves st st' ->
  authenticateUser st req = Next user ->
  (exists added, users st' = (users st ++ added)%list)
  /\ authenticateUser st' req = Next user.
Proof.
  intros Hserves Hgate.
  assert (Hgrow : exists added, users st' = (users st ++ added)%list).
  { induction Hserves as [| st' endpoint req' _ IH].
    - exists []. rewrite app_nil_r. reflexivity.
    - destruct IH as [added Hadded].
      destruct (app_extends_users endpoint st' req') as [added' Hadded'].
      exists (added ++ added')%list.
      rewrite Hadded', Hadded, app_assoc. reflexivity. }
  split; [exact Hgrow |].
  destruct Hgrow as [added Hadded].
  revert Hgate. unfold authenticateUser.
  destruct (authorization req) as [h |]; [| discriminate].
  destruct (negb (Js.truthy_string h)); [discriminate |].
  destruct (credentials h) as [[email password] |]; [| discriminate].
  unfold Sql.get_user_by_email.
  destruct email as [identity |]; [| discriminate].
  destruct (find _ (users st)) as [u |] eqn:Hfind; [| discriminate].
  rewrite Hadded, (find_in_prefix _ _ added u Hfind).
  auto.
Qed.

End Lasting.

Lemma header_is_required_on_every_route_witness :
  @app Reference.platform GET_books Sample.one_pending
    (mkRequest None 0 Body.empty)
  = (Response 401 (Text "Authorization header missing"), Sample.one_pending)
  /\ @app Reference.platform GET_books Sample.one_pending (Sample.bare "Basic")
     = (Unhandled BufferTypeError, Sample.one_pending).
Proof.
  split.
  - apply (@header_is_required_on_every_route Reference.platform GET_books
             Sample.one_pending (mkRequest None 0 Body.empty)).
    left. reflexivity.
  - apply (proj2 (@header_is_required_on_every_route Reference.platform
                    GET_books Sample.one_pending (Sample.bare "Basic"))
             "Basic").
    + reflexivity.
    + discriminate.
    + reflexivity.
Defined.

(** After a user has been created the administrator still logs in. *)
Lemma logins_keep_working_witness :
  @authenticateUser Reference.platform
    (snd (@app Reference.platform POST_users Sample.one_pending
            (Scenario.signup Sample.basic_admin "new@lib.org" "hunter2" None)))
    (Sample.bare Sample.basic_admin)
  = Next Sample.admin.
Proof.
  apply (@logins_keep_working Reference.platform Sample.one_pending).
  - apply serves_request. apply serves_none.
  - reflexivity.
Defined.

(** ** A secret that holds a colon *)

Section Colon.

Context {platform : Platform}.

(** C7: the claim fails on a secret that holds a colon.  Let a client
    present the pair [identity], [secret:more] in a header [scheme token]
    whose token decodes to [identity:secret:more], and let [user] be the
    stored user of that email.  The gate compares [secret], not
    [secret:more], with the stored hash.  So it answers 401 "Invalid
    credentials" when the presented secret matches the hash and its part
    before the colon does not, and it calls [next] with [user] when the
    presented secret does not match the hash and its part before the
    colon does. *)
Theorem C7_secret_with_colon_is_misjudged (st : Store) (req : Request)
    (user : User.t) (scheme token identity secret more : string) :
  emails_unique st ->
  In user (users st) ->
  User.email user = identity ->
  occurs ":" identity = false ->
  occurs ":" secret = false ->
  occurs " " scheme = false ->
  occurs " " token = false ->
  base64_toString token = identity ++ ":" ++ secret ++ ":" ++ more ->
  authorization req = Some (scheme ++ " " ++ token) ->
  (bcrypt_compareSync (secret ++ ":" ++ more) (User.password user) = true ->
   bcrypt_compareSync secret (User.password user) = false ->
   authenticateUser st req = Stop (Response 401 (Text "Invalid credentials")))
  /\ (bcrypt_compareSync (secret ++ ":" ++ more) (User.password user) = false ->
      bcrypt_compareSync secret (User.password user) = true ->
      authenticateUser st req = Next user).
Proof.
  intros Huniq Hin Hemail Hid Hsecret Hscheme Htoken Hdecoded Hreq.
  assert (Hcred : credentials (scheme ++ " " ++ token)
                  = Some (Some identity, Some secret)).
  { unfold credentials.
    rewrite (header_token scheme token Hscheme Htoken), Hdecoded.
    simpl append. rewrite (split_at_separator ":" identity _ Hid).
    rewrite (split_at_separator ":" secret more Hsecret).
    destruct (Js.split ":" more); reflexivity. }
  destruct (gate_decides_on_the_pair_read st req _ identity secret
              Huniq Hreq Hcred) as [Hknown _].
  specialize (Hknown user Hin Hemail).
  split; intros _ Hcut; rewrite Hcut in Hknown; exact Hknown.
Qed.

End Colon.

(** Carol, created with the password "pa:ss", is answered 401 with her
    own email and password; dave, created with the password "pa", is let
    in with the password "pa:ss". *)
Lemma C7_secret_with_colon_is_misjudged_witness :
  @authenticateUser Reference.platform Scenario.with_carol
    (Sample.bare Scenario.basic_carol)
  = Stop (Response 401 (Text "Invalid credentials"))
  /\ @authenticateUser Reference.platform Scenario.with_dave
       (Sample.bare Scenario.basic_dave_pa_ss)
     = Next Scenario.dave.
Proof.
  split.
  - destruct (@C7_secret_with_colon_is_misjudged Reference.platform
                Scenario.with_carol (Sample.bare Scenario.basic_carol)
                Scenario.carol "Basic" "Y2Fyb2xAbGliLm9yZzpwYTpzcw=="
                "carol@lib.org" "pa" "ss") as [Hrefused _];
      [ repeat constructor; simpl; intuition discriminate
      | right; right; left; reflexivity
      | reflexivity | reflexivity | reflexivity | reflexivity | reflexivity
      | reflexivity | reflexivity | ].
    apply Hrefused; reflexivity.
  - destruct (@C7_secret_with_colon_is_misjudged Reference.platform
                Scenario.with_dave (Sample.bare Scenario.basic_dave_pa_ss)
                Scenario.dave "Basic" "ZGF2ZUBsaWIub3JnOnBhOnNz"
                "dave@lib.org" "pa" "ss") as [_ Hadmitted];
      [ repeat constructor; simpl; intuition discriminate
      | right; right; left; reflexivity
      | reflexivity | reflexivity | reflexivity | reflexivity | reflexivity
      | reflexivity | reflexivity | ].
    apply Hadmitted; reflexivity.
Defined.

(** The two users were created through [POST /users], which answered 200. *)
Example carol_and_dave_were_created :
  @createUser Reference.platform Sample.admin
    (Scenario.signup Sample.basic_admin "carol@lib.org" "pa:ss" None)
    Sample.one_pending
  = (Response 200 (Text "User created successfully"), Scenario.with_carol)
  /\ users Scenario.with_carol = [Sample.admin; Sample.reader; Scenario.carol]
  /\ users Scenario.with_dave = [Sample.admin; Sample.reader; Scenario.dave].
Proof. repeat split. Qed.
